(** * kargo-render: the Azure DevOps pull-request adapter

    A shallow embedding of package [azuredevops] (two variants of the same
    file: one with a standalone URL parser, a credential check and a
    repository lookup, and one with the URL parse written inline in
    [OpenPR]), together with the parts of Go's [strings], [fmt] and of the
    Azure DevOps SDK that the package calls. *)

From Stdlib Require Import String Ascii List Arith Lia Bool NArith.
From ExtLib Require Import Structures.Monad.
Import ListNotations.
Import MonadNotation.

Local Open Scope string_scope.
Local Open Scope list_scope.
Local Open Scope monad_scope.

(** ** Go's [strings] package, on byte strings *)

Module strings.

(** [s[n:]] *)
Fixpoint drop (n : nat) (s : string) : string :=
  match n, s with
  | S n', String _ s' => drop n' s'
  | _, _ => s
  end.

(** [s[:n]] *)
Fixpoint take (n : nat) (s : string) : string :=
  match n, s with
  | S n', String c s' => String c (take n' s')
  | _, _ => EmptyString
  end.

(** [len(s) >= len(prefix) && s[:len(prefix)] == prefix] *)
Definition HasPrefix (s prefix : string) : bool :=
  (String.length prefix <=? String.length s)%nat
  && String.eqb (take (String.length prefix) s) prefix.

(** [len(s) >= len(suffix) && s[len(s)-len(suffix):] == suffix] *)
Definition HasSuffix (s suffix : string) : bool :=
  (String.length suffix <=? String.length s)%nat
  && String.eqb (drop (String.length s - String.length suffix) s) suffix.

Definition TrimPrefix (s prefix : string) : string :=
  if HasPrefix s prefix then drop (String.length prefix) s else s.

Definition TrimSuffix (s suffix : string) : string :=
  if HasSuffix s suffix
  then take (String.length s - String.length suffix) s
  else s.

(** Position of the first occurrence of [substr] in [s]; Go answers [-1]
    where this answers [None]. *)
Fixpoint Index (s substr : string) : option nat :=
  if HasPrefix s substr then Some 0
  else match s with
       | EmptyString => None
       | String _ s' => option_map S (Index s' substr)
       end.

(** [Index(s, substr) >= 0] *)
Definition Contains (s substr : string) : bool :=
  match Index s substr with
  | Some _ => true
  | None => false
  end.

(** The scan behind [Split] for a non-empty separator: the head of the
    answer is the piece that starts at the current position.  [skip]
    counts the bytes of a separator occurrence that are still to be
    passed over, so occurrences are taken leftmost and never overlap. *)
Fixpoint genSplit (sep : string) (skip : nat) (s : string) : list string :=
  match s with
  | EmptyString => [EmptyString]
  | String c s' =>
      match skip with
      | S k => genSplit sep k s'
      | O =>
          if HasPrefix s sep
          then EmptyString :: genSplit sep (String.length sep - 1) s'
          else match genSplit sep 0 s' with
               | piece :: pieces => String c piece :: pieces
               | [] => [String c EmptyString]
               end
      end
  end.

(** With an empty separator Go cuts after every UTF-8 sequence; the
    package never passes one, and bytes stand for sequences here. *)
Definition explode (s : string) : list string :=
  map (fun c => String c EmptyString) (list_ascii_of_string s).

Definition Split (s sep : string) : list string :=
  match sep with
  | EmptyString => explode s
  | _ => genSplit sep 0 s
  end.

End strings.

(** ** Go values: errors, panics, formatting *)

(** The two error values the package builds: [errors.errorString] and
    [fmt.wrapError].  Errors handed back by the SDK are values of the same
    type. *)
Inductive error : Type :=
| errorString (s : string)
| wrapError (msg : string) (err : error).

(** [err.Error()] *)
Definition Error (e : error) : string :=
  match e with
  | errorString s => s
  | wrapError msg _ => msg
  end.

(** [errors.Unwrap(err)] *)
Definition Unwrap (e : error) : option error :=
  match e with
  | errorString _ => None
  | wrapError _ err => Some err
  end.

(** Run-time panics of the Go runtime that the package can provoke. *)
Inductive runtimeError : Type :=
| indexOutOfRange (index len : nat)
| nilDereference.

(** What evaluating a Go expression or call comes to: a value, or a panic
    that unwinds the caller. *)
Inductive outcome (A : Type) : Type :=
| Returns (a : A)
| Panics (e : runtimeError).

Arguments Returns {A} a.
Arguments Panics {A} e.

#[global] Instance Monad_outcome : Monad outcome :=
  {| ret := fun _ a => Returns a;
     bind := fun _ _ m k =>
               match m with
               | Returns a => k a
               | Panics e => Panics e
               end |}.

(** [l[i]] on a slice *)
Definition index {A : Type} (l : list A) (i : nat) : outcome A :=
  match nth_error l i with
  | Some x => Returns x
  | None => Panics (indexOutOfRange i (List.length l))
  end.

(** [*p] on a pointer, [None] being [nil] *)
Definition deref {A : Type} (p : option A) : outcome A :=
  match p with
  | Some x => Returns x
  | None => Panics nilDereference
  end.

Module fmt.

Inductive operand : Type :=
| str (s : string)
| err (e : error).

Definition text (a : operand) : string :=
  match a with
  | str s => s
  | err e => Error e
  end.

(** The verbs the package uses are [%s] and [%w]; both print the
    operand's text.  Every call of the package supplies exactly the
    operands its format names. *)
Fixpoint Sprintf (format : string) (a : list operand) : string :=
  match format with
  | EmptyString => EmptyString
  | String c rest =>
      if Ascii.eqb c "%"
      then match rest with
           | EmptyString => "%!(NOVERB)"
           | String verb rest' =>
               if Ascii.eqb verb "%" then String "%" (Sprintf rest' a)
               else match a with
                    | x :: a' => text x ++ Sprintf rest' a'
                    | [] => "%!" ++ String verb "(MISSING)" ++ Sprintf rest' []
                    end
           end
      else String c (Sprintf rest a)
  end.

(** The operand of the first [%w], when it is an error. *)
Fixpoint wrapped (format : string) (a : list operand) : option error :=
  match format with
  | EmptyString => None
  | String c rest =>
      if Ascii.eqb c "%"
      then match rest with
           | EmptyString => None
           | String verb rest' =>
               if Ascii.eqb verb "%" then wrapped rest' a
               else match a with
                    | x :: a' =>
                        match Ascii.eqb verb "w", x with
                        | true, err e => Some e
                        | _, _ => wrapped rest' a'
                        end
                    | [] => None
                    end
           end
      else wrapped rest a
  end.

Definition Errorf (format : string) (a : list operand) : error :=
  match wrapped format a with
  | Some e => wrapError (Sprintf format a) e
  | None => errorString (Sprintf format a)
  end.

End fmt.

(** ** The Azure DevOps SDK, as far as the package touches it *)

(** A [uuid.UUID] is sixteen bytes; the package only passes identifiers on,
    so the 128-bit value is kept as a number. *)
Definition UUID : Type := N.

(** The connection settings built by [azuredevops.NewPatConnection]. *)
Record Connection : Type :=
  { BaseUrl : string;
    PersonalAccessToken : string }.

Definition NewPatConnection (organizationUrl personalAccessToken : string)
  : Connection :=
  {| BaseUrl := organizationUrl;
     PersonalAccessToken := personalAccessToken |}.

(** Modelled from the spec: [RepoCredentials] of this repository's package
    [pkg/git], which is not among the sources; it holds the password or
    token that is used as the PAT. *)
Record RepoCredentials : Type :=
  { Password : string }.

(** The SDK's structs have pointer fields throughout; [None] is [nil]. *)
Record GitRepository : Type :=
  { Id : option UUID;
    Name : option string }.

Record GitPullRequest : Type :=
  { Title : option string;
    Description : option string;
    SourceRefName : option string;
    TargetRefName : option string;
    Repository : option GitRepository;
    Url : option string }.

Record GetRepositoriesArgs : Type :=
  { GetRepositories_Project : option string }.

Record CreatePullRequestArgs : Type :=
  { GitPullRequestToCreate : option GitPullRequest;
    RepositoryId : option UUID;
    Project : option string }.

(** Every request that leaves the process, in the order it was made. *)
Inductive Call : Type :=
| CallNewClient (connection : Connection)
| CallGetRepositories (args : GetRepositoriesArgs)
| CallCreatePullRequest (args : CreatePullRequestArgs).

(** A Go function that talks to the hosted service: it extends the log of
    requests and returns or panics. *)
Definition Go (A : Type) : Type := list Call -> outcome A * list Call.

#[global] Instance Monad_Go : Monad Go :=
  {| ret := fun _ a tr => (Returns a, tr);
     bind := fun _ _ m k tr =>
               match m tr with
               | (Returns a, tr') => k a tr'
               | (Panics e, tr') => (Panics e, tr')
               end |}.

(** A computation without requests, run inside [Go]. *)
Definition pure {A : Type} (m : outcome A) : Go A :=
  fun tr => (m, tr).

Module git.

(** The [git.Client] interface: the two methods the package calls, each
    answering with Go's pair of a result and an error.  The context
    argument only carries cancellation to the SDK and is not kept. *)
Record Client : Type :=
  { GetRepositories :
      GetRepositoriesArgs -> option (list GitRepository) * option error;
    CreatePullRequest :
      CreatePullRequestArgs -> option GitPullRequest * option error }.

(** The hosted service behind [git.NewClient]: what it answers to a
    connection attempt. *)
Record Service : Type :=
  { dial : Connection -> option Client * option error }.

Definition NewClient (svc : Service) (connection : Connection)
  : Go (option Client * option error) :=
  fun tr => (Returns (dial svc connection), tr ++ [CallNewClient connection]).

(** [client.GetRepositories(ctx, args)]; a nil interface value panics. *)
Definition callGetRepositories (client : option Client)
    (args : GetRepositoriesArgs)
  : Go (option (list GitRepository) * option error) :=
  c <- pure (deref client) ;;
  (fun tr => (Returns (GetRepositories c args),
              tr ++ [CallGetRepositories args])).

(** [client.CreatePullRequest(ctx, args)] *)
Definition callCreatePullRequest (client : option Client)
    (args : CreatePullRequestArgs)
  : Go (option GitPullRequest * option error) :=
  c <- pure (deref client) ;;
  (fun tr => (Returns (CreatePullRequest c args),
              tr ++ [CallCreatePullRequest args])).

End git.

(** ** internal/azuredevops/azuredevops.go: the variant with the standalone
       parser, the credential check and the repository lookup *)

Module Resolving.

Definition parseAzureDevOpsURL (repoURL : string)
  : outcome (string * string * string * option error) :=
  if strings.Contains repoURL "dev.azure.com" then
    let urlParts :=
      strings.Split (strings.TrimPrefix repoURL "https://dev.azure.com/") "/" in
    if (List.length urlParts <? 4)%nat then
      ret ("", "", "",
           Some (fmt.Errorf "invalid Azure DevOps repository URL format" []))
    else
      org <- index urlParts 0 ;;
      proj <- index urlParts 1 ;;
      part3 <- index urlParts 3 ;;
      let repo := strings.TrimSuffix part3 ".git" in
      ret (org, proj, repo, None)
  else if strings.Contains repoURL ".visualstudio.com" then
    let urlParts := strings.Split repoURL "/" in
    if (List.length urlParts <? 5)%nat then
      ret ("", "", "",
           Some (fmt.Errorf "invalid Azure DevOps repository URL format" []))
    else
      part2 <- index urlParts 2 ;;
      org <- index (strings.Split part2 ".") 0 ;;
      proj <- index urlParts 3 ;;
      part5 <- index urlParts 5 ;;
      let repo := strings.TrimSuffix part5 ".git" in
      ret (org, proj, repo, None)
  else
    ret ("", "", "",
         Some (fmt.Errorf "unsupported Azure DevOps repository URL format" [])).

(** The [for _, repo := range *repos] loop of [getRepositoryID]: [Some]
    is the [return] taken inside the loop, [None] is falling out of it. *)
Fixpoint rangeRepos (repository : string) (repos : list GitRepository)
  : outcome (option (option UUID * option error)) :=
  match repos with
  | [] => ret None
  | repo :: rest =>
      name <- deref (Name repo) ;;
      if String.eqb name repository
      then ret (Some (Id repo, None))
      else rangeRepos repository rest
  end.

Definition getRepositoryID (client : option git.Client)
    (project repository : string)
  : Go (option UUID * option error) :=
  '(repos, err) <- git.callGetRepositories client
                     {| GetRepositories_Project := Some project |} ;;
  match err with
  | Some e =>
      ret (None, Some (fmt.Errorf "error listing repositories: %w" [fmt.err e]))
  | None =>
      returned <- match repos with
                  | Some l => pure (rangeRepos repository l)
                  | None => ret None
                  end ;;
      match returned with
      | Some r => ret r
      | None =>
          ret (None,
               Some (fmt.Errorf "repository '%s' not found in project '%s'"
                       [fmt.str repository; fmt.str project]))
      end
  end.

Definition ensureRefFormat (branchName : string) : string :=
  if negb (strings.HasPrefix branchName "refs/heads/") then
    "refs/heads/" ++ strings.TrimPrefix branchName "refs/heads/"
  else branchName.

Definition OpenPR (svc : git.Service)
    (repoURL title description targetBranch sourceBranch : string)
    (creds : RepoCredentials)
  : Go (string * option error) :=
  if String.eqb (Password creds) "" then
    ret ("", Some (fmt.Errorf
           "Azure DevOps requires a Personal Access Token (PAT) as password" []))
  else
    '(organization, project, repository, err) <-
        pure (parseAzureDevOpsURL repoURL) ;;
    match err with
    | Some e => ret ("", Some e)
    | None =>
        let connection :=
          NewPatConnection
            (fmt.Sprintf "https://dev.azure.com/%s" [fmt.str organization])
            (Password creds) in
        '(gitClient, err) <- git.NewClient svc connection ;;
        match err with
        | Some e =>
            ret ("", Some (fmt.Errorf
                   "error creating Azure DevOps Git client: %w" [fmt.err e]))
        | None =>
            '(repoUUID, err) <- getRepositoryID gitClient project repository ;;
            match err with
            | Some e => ret ("", Some e)
            | None =>
                let sourceBranch := ensureRefFormat sourceBranch in
                let targetBranch := ensureRefFormat targetBranch in
                let createPRArgs :=
                  {| Project := Some project;
                     RepositoryId := repoUUID;
                     GitPullRequestToCreate :=
                       Some {| Title := Some title;
                               Description := Some description;
                               SourceRefName := Some sourceBranch;
                               TargetRefName := Some targetBranch;
                               Repository := None;
                               Url := None |} |} in
                '(pr, err) <- git.callCreatePullRequest gitClient createPRArgs ;;
                match err with
                | Some e =>
                    ret ("", Some (fmt.Errorf
                           "error creating pull request: %w" [fmt.err e]))
                | None =>
                    created <- pure (deref pr) ;;
                    url <- pure (deref (Url created)) ;;
                    ret (url, None)
                end
            end
        end
    end.

End Resolving.

(** ** The variant with the URL parse written inline in [OpenPR] *)

Module Inline.

Definition ensureRefFormat (branchName : string) : string :=
  if negb (strings.HasPrefix branchName "refs/heads/") then
    "refs/heads/" ++ strings.TrimPrefix branchName "refs/heads/"
  else branchName.

Definition OpenPR (svc : git.Service)
    (repoURL title description targetBranch sourceBranch : string)
    (creds : RepoCredentials)
  : Go (string * option error) :=
  let urlParts :=
    strings.Split (strings.TrimPrefix repoURL "https://dev.azure.com/") "/" in
  if (List.length urlParts <? 4)%nat then
    ret ("", Some (fmt.Errorf "invalid Azure DevOps repository URL format" []))
  else
    organization <- pure (index urlParts 0) ;;
    project <- pure (index urlParts 1) ;;
    part3 <- pure (index urlParts 3) ;;
    let repository := strings.TrimSuffix part3 ".git" in
    let connection :=
      NewPatConnection
        (fmt.Sprintf "https://dev.azure.com/%s" [fmt.str organization])
        (Password creds) in
    '(gitClient, err) <- git.NewClient svc connection ;;
    match err with
    | Some e =>
        ret ("", Some (fmt.Errorf
               "error creating Azure DevOps Git client: %w" [fmt.err e]))
    | None =>
        let sourceBranch := ensureRefFormat sourceBranch in
        let targetBranch := ensureRefFormat targetBranch in
        let createPRArgs :=
          {| Project := Some project;
             RepositoryId := None;
             GitPullRequestToCreate :=
               Some {| Title := Some title;
                       Description := Some description;
                       SourceRefName := Some sourceBranch;
                       TargetRefName := Some targetBranch;
                       Repository :=
                         Some {| Id := None; Name := Some repository |};
                       Url := None |} |} in
        '(pr, err) <- git.callCreatePullRequest gitClient createPRArgs ;;
        match err with
        | Some e =>
            ret ("", Some (fmt.Errorf
                   "error creating pull request: %w" [fmt.err e]))
        | None =>
            created <- pure (deref pr) ;;
            url <- pure (deref (Url created)) ;;
            ret (url, None)
        end
    end.

End Inline.

(** ** Reference behaviours the package is compared with *)

(** The [dev.azure.com] rule of the URL parser as the documentation words
    it: strip the host prefix, split on [/], demand four segments, take
    segments 0, 1 and 3, the last without its [.git] suffix. *)
Definition devAzureRule (repoURL : string)
  : outcome (string * string * string * option error) :=
  match strings.Split (strings.TrimPrefix repoURL "https://dev.azure.com/") "/" with
  | org :: proj :: _ :: repo :: _ =>
      Returns (org, proj, strings.TrimSuffix repo ".git", None)
  | _ =>
      Returns ("", "", "",
               Some (errorString "invalid Azure DevOps repository URL format"))
  end.

(** The [visualstudio.com] rule, in the same words: split the whole URL,
    take the host's first label and segments 3 and 5. *)
Definition visualStudioRule (repoURL : string)
  : option (string * string * string) :=
  match strings.Split repoURL "/" with
  | _ :: _ :: host :: proj :: _ :: repo :: _ =>
      match strings.Split host "." with
      | org :: _ => Some (org, proj, strings.TrimSuffix repo ".git")
      | [] => None
      end
  | _ => None
  end.

(** Ref normalization as a plain prefix check plus concatenation. *)
Definition ensureRefFormat_simplified (branchName : string) : string :=
  if strings.HasPrefix branchName "refs/heads/" then branchName
  else "refs/heads/" ++ branchName.

(** What [Inline.OpenPR] goes on to do once the three names are cut out of
    the URL: the function's text from the connection onwards. *)
Definition Inline_submit (svc : git.Service)
    (organization project repository : string)
    (title description targetBranch sourceBranch : string)
    (creds : RepoCredentials)
  : Go (string * option error) :=
  let connection :=
    NewPatConnection
      (fmt.Sprintf "https://dev.azure.com/%s" [fmt.str organization])
      (Password creds) in
  '(gitClient, err) <- git.NewClient svc connection ;;
  match err with
  | Some e =>
      ret ("", Some (fmt.Errorf
             "error creating Azure DevOps Git client: %w" [fmt.err e]))
  | None =>
      let sourceBranch := Inline.ensureRefFormat sourceBranch in
      let targetBranch := Inline.ensureRefFormat targetBranch in
      let createPRArgs :=
        {| Project := Some project;
           RepositoryId := None;
           GitPullRequestToCreate :=
             Some {| Title := Some title;
                     Description := Some description;
                     SourceRefName := Some sourceBranch;
                     TargetRefName := Some targetBranch;
                     Repository :=
                       Some {| Id := None; Name := Some repository |};
                     Url := None |} |} in
      '(pr, err) <- git.callCreatePullRequest gitClient createPRArgs ;;
      match err with
      | Some e =>
          ret ("", Some (fmt.Errorf
                 "error creating pull request: %w" [fmt.err e]))
      | None =>
          created <- pure (deref pr) ;;
          url <- pure (deref (Url created)) ;;
          ret (url, None)
      end
  end.

(** A repository that the scan of [getRepositoryID] passes over: it has a
    name, and the name is not the requested one. *)
Definition passedOver (repository : string) (repo : GitRepository) : Prop :=
  exists name, Name repo = Some name /\ name <> repository.

(** ** A small hosted service to run the package against *)

(** Project [myproj] lists three repositories, two of them called
    [myrepo]; creating a pull request always succeeds. *)
Definition sampleClient : git.Client :=
  {| git.GetRepositories := fun _ =>
       (Some [ {| Id := Some 1%N; Name := Some "docs" |};
               {| Id := Some 2%N; Name := Some "myrepo" |};
               {| Id := Some 3%N; Name := Some "myrepo" |} ],
        None);
     git.CreatePullRequest := fun _ =>
       (Some {| Title := None; Description := None;
                SourceRefName := None; TargetRefName := None;
                Repository := None;
                Url := Some "https://dev.azure.com/myorg/_apis/pr/1" |},
        None) |}.

Definition sampleService : git.Service :=
  {| git.dial := fun _ => (Some sampleClient, None) |}.

(** A listing in which one entry came back without a name. *)
Definition namelessClient : git.Client :=
  {| git.GetRepositories := fun _ =>
       (Some [ {| Id := Some 1%N; Name := None |};
               {| Id := Some 2%N; Name := Some "myrepo" |} ],
        None);
     git.CreatePullRequest := git.CreatePullRequest sampleClient |}.

(** A client whose listing call fails. *)
Definition failingClient : git.Client :=
  {| git.GetRepositories := fun _ => (None, Some (errorString "timeout"));
     git.CreatePullRequest := git.CreatePullRequest sampleClient |}.

(** ** The requests [OpenPR] builds *)

(** The connection both variants open: always on the [dev.azure.com] host,
    for the parsed organization, with the password as the token. *)
Definition patConnection (organization : string) (creds : RepoCredentials)
  : Connection :=
  {| BaseUrl := ("https://dev.azure.com/" ++ organization)%string;
     PersonalAccessToken := Password creds |}.

(** [createPRArgs] of the variant with the repository lookup: the
    repository is addressed by ID. *)
Definition pullRequestByID (project : string) (repoUUID : option UUID)
    (title description targetBranch sourceBranch : string)
  : CreatePullRequestArgs :=
  {| Project := Some project;
     RepositoryId := repoUUID;
     GitPullRequestToCreate :=
       Some {| Title := Some title;
               Description := Some description;
               SourceRefName := Some (Resolving.ensureRefFormat sourceBranch);
               TargetRefName := Some (Resolving.ensureRefFormat targetBranch);
               Repository := None;
               Url := None |} |}.

(** [createPRArgs] of the inline variant: the repository is addressed by an
    embedded object that holds its name. *)
Definition pullRequestByName (project repository : string)
    (title description targetBranch sourceBranch : string)
  : CreatePullRequestArgs :=
  {| Project := Some project;
     RepositoryId := None;
     GitPullRequestToCreate :=
       Some {| Title := Some title;
               Description := Some description;
               SourceRefName := Some (Inline.ensureRefFormat sourceBranch);
               TargetRefName := Some (Inline.ensureRefFormat targetBranch);
               Repository := Some {| Id := None; Name := Some repository |};
               Url := None |} |}.

(** How both variants end, from the answer to the create request on: the
    URL of the created pull request, the wrapped error, or the panic of
    reading a nil answer. *)
Definition createdURL (answer : option GitPullRequest * option error)
  : outcome (string * option error) :=
  let (pr, err) := answer in
  match err with
  | Some e =>
      Returns ("", Some (wrapError ("error creating pull request: " ++ Error e) e))
  | None =>
      match pr with
      | Some created =>
          match Url created with
          | Some url => Returns (url, None)
          | None => Panics nilDereference
          end
      | None => Panics nilDereference
      end
  end.

(** A listing entry without a name that the scan of [getRepositoryID]
    reaches: everything listed before it has another name. *)
Definition reachesNameless (repository : string) (l : list GitRepository)
  : Prop :=
  exists before repo after,
    l = before ++ repo :: after
    /\ Forall (passedOver repository) before
    /\ Name repo = None.

(** ** More services to run the package against *)

(** A service that refuses every connection. *)
Definition refusingService : git.Service :=
  {| git.dial := fun _ => (None, Some (errorString "401 Unauthorized")) |}.

(** A service whose client lists like [sampleClient] but turns every create
    request down. *)
Definition rejectingClient : git.Client :=
  {| git.GetRepositories := git.GetRepositories sampleClient;
     git.CreatePullRequest := fun _ => (None, Some (errorString "409 Conflict")) |}.

Definition rejectingService : git.Service :=
  {| git.dial := fun _ => (Some rejectingClient, None) |}.

(** A service whose listing call fails. *)
Definition failingService : git.Service :=
  {| git.dial := fun _ => (Some failingClient, None) |}.

(** * Proof steps *)

(** Run the monadic glue of a [Go] computation up to the next answer of
    the service, leaving string operations folded. *)
Ltac go_step := cbn [bind ret Monad_Go Monad_outcome pure deref].

(** Evaluate the length guard and the slice reads of the parser. *)
Ltac slice_step :=
  cbn [bind ret Monad_outcome index nth_error List.length Nat.ltb Nat.leb].

(** * Facts about the [strings] model *)

Section StringFacts.

Lemma length_app (a b : string) :
  String.length (a ++ b) = String.length a + String.length b.
Proof. induction a as [|c a IH]; simpl; [reflexivity | now rewrite IH]. Qed.

Lemma app_assoc_str (a b c : string) : ((a ++ b) ++ c = a ++ (b ++ c))%string.
Proof. induction a as [|x a IH]; simpl; [reflexivity | now rewrite IH]. Qed.

Lemma app_empty_r (a : string) : (a ++ "")%string = a.
Proof. induction a as [|x a IH]; simpl; [reflexivity | now rewrite IH]. Qed.

Lemma take_length_app (p s : string) :
  strings.take (String.length p) (p ++ s) = p.
Proof. induction p as [|c p IH]; simpl; [now destruct s | now rewrite IH]. Qed.

Lemma drop_length_app (p s : string) :
  strings.drop (String.length p) (p ++ s) = s.
Proof. induction p as [|c p IH]; simpl; [now destruct s | exact IH]. Qed.

Lemma take_drop (n : nat) (s : string) :
  (strings.take n s ++ strings.drop n s)%string = s.
Proof.
  revert s; induction n as [|n IH]; intros [|c s]; simpl; try reflexivity.
  now rewrite IH.
Qed.

Lemma HasPrefix_app (p s : string) : strings.HasPrefix (p ++ s) p = true.
Proof.
  unfold strings.HasPrefix.
  rewrite take_length_app, String.eqb_refl, length_app.
  rewrite andb_true_r. apply Nat.leb_le. lia.
Qed.

Lemma HasPrefix_split (s p : string) :
  strings.HasPrefix s p = true ->
  s = (p ++ strings.drop (String.length p) s)%string.
Proof.
  unfold strings.HasPrefix. intros H.
  apply andb_true_iff in H as [_ H]. apply String.eqb_eq in H.
  rewrite <- H at 1. symmetry. apply take_drop.
Qed.

Lemma HasPrefix_cons (c d : ascii) (s p : string) :
  strings.HasPrefix (String c s) (String d p)
  = Ascii.eqb c d && strings.HasPrefix s p.
Proof.
  unfold strings.HasPrefix. simpl.
  destruct (Ascii.eqb c d), (String.length p <=? String.length s)%nat;
    reflexivity.
Qed.

Lemma HasPrefix_char (c d : ascii) (s : string) :
  strings.HasPrefix (String c s) (String d "") = Ascii.eqb c d.
Proof. rewrite HasPrefix_cons. unfold strings.HasPrefix. simpl. apply andb_true_r. Qed.

Lemma TrimPrefix_app (p s : string) : strings.TrimPrefix (p ++ s) p = s.
Proof.
  unfold strings.TrimPrefix. now rewrite HasPrefix_app, drop_length_app.
Qed.

Lemma TrimPrefix_absent (s p : string) :
  strings.HasPrefix s p = false -> strings.TrimPrefix s p = s.
Proof. unfold strings.TrimPrefix. now intros ->. Qed.

Lemma HasSuffix_app (s suffix : string) :
  strings.HasSuffix (s ++ suffix) suffix = true.
Proof.
  unfold strings.HasSuffix. rewrite length_app.
  replace (String.length s + String.length suffix - String.length suffix)
    with (String.length s) by lia.
  rewrite drop_length_app, String.eqb_refl, andb_true_r.
  apply Nat.leb_le. lia.
Qed.

Lemma TrimSuffix_app (s suffix : string) :
  strings.TrimSuffix (s ++ suffix) suffix = s.
Proof.
  unfold strings.TrimSuffix. rewrite HasSuffix_app, length_app.
  replace (String.length s + String.length suffix - String.length suffix)
    with (String.length s) by lia.
  apply take_length_app.
Qed.

End StringFacts.

Section SearchFacts.

Lemma Index_cons (c : ascii) (s sub : string) :
  strings.Index (String c s) sub
  = if strings.HasPrefix (String c s) sub then Some 0
    else option_map S (strings.Index s sub).
Proof. reflexivity. Qed.

Lemma Contains_cons (c : ascii) (s sub : string) :
  strings.Contains (String c s) sub
  = strings.HasPrefix (String c s) sub || strings.Contains s sub.
Proof.
  unfold strings.Contains. rewrite Index_cons.
  destruct (strings.HasPrefix (String c s) sub); [reflexivity|].
  now destruct (strings.Index s sub).
Qed.

Lemma Contains_prefix (s sub : string) :
  strings.HasPrefix s sub = true -> strings.Contains s sub = true.
Proof.
  intros H. unfold strings.Contains.
  destruct s; simpl; now rewrite H.
Qed.

Lemma Contains_app_r (a b sub : string) :
  strings.Contains b sub = true -> strings.Contains (a ++ b) sub = true.
Proof.
  intros H. induction a as [|c a IH]; simpl; [exact H|].
  rewrite Contains_cons, IH. apply orb_true_r.
Qed.

Lemma Contains_middle (a sub b : string) :
  strings.Contains (a ++ sub ++ b) sub = true.
Proof. apply Contains_app_r, Contains_prefix, HasPrefix_app. Qed.

(** A string that starts with the [dev.azure.com] host prefix contains
    the host name. *)
Lemma host_prefix_Contains (s : string) :
  strings.HasPrefix s "https://dev.azure.com/" = true ->
  strings.Contains s "dev.azure.com" = true.
Proof.
  intros H. apply HasPrefix_split in H. rewrite H.
  apply (Contains_middle "https://" "dev.azure.com" (String "/" _)).
Qed.

Lemma no_host_TrimPrefix (s : string) :
  strings.Contains s "dev.azure.com" = false ->
  strings.TrimPrefix s "https://dev.azure.com/" = s.
Proof.
  intros H. apply TrimPrefix_absent.
  destruct (strings.HasPrefix s "https://dev.azure.com/") eqn:E;
    [|reflexivity].
  apply host_prefix_Contains in E. congruence.
Qed.

End SearchFacts.

Section SplitFacts.

Variable c : ascii.

Let sep : string := String c EmptyString.

Lemma genSplit_nonempty (sp : string) (k : nat) (s : string) :
  strings.genSplit sp k s <> [].
Proof.
  revert k; induction s as [|d s IH]; intros k; simpl; [discriminate|].
  destruct k; [|apply IH].
  destruct (strings.HasPrefix (String d s) sp); [discriminate|].
  destruct (strings.genSplit sp 0 s); discriminate.
Qed.

Lemma Split_char (s : string) :
  strings.Split s sep = strings.genSplit sep 0 s.
Proof. reflexivity. Qed.

(** Up to the first separator byte, the scan copies the input. *)
Lemma genSplit_piece (a rest : string) :
  strings.Contains a sep = false ->
  strings.genSplit sep 0 (a ++ String c rest)
  = a :: strings.genSplit sep 0 rest.
Proof.
  unfold sep. induction a as [|d a IH]; intros H.
  - cbn [append strings.genSplit].
    rewrite HasPrefix_char, Ascii.eqb_refl. reflexivity.
  - rewrite Contains_cons in H. apply orb_false_iff in H as [Hd Ha].
    rewrite HasPrefix_char in Hd.
    change (String d a ++ String c rest)%string
      with (String d (a ++ String c rest)).
    cbn [strings.genSplit]. rewrite HasPrefix_char, Hd, (IH Ha).
    reflexivity.
Qed.

Lemma genSplit_last (a : string) :
  strings.Contains a sep = false -> strings.genSplit sep 0 a = [a].
Proof.
  unfold sep. induction a as [|d a IH]; intros H; [reflexivity|].
  rewrite Contains_cons in H. apply orb_false_iff in H as [Hd Ha].
  rewrite HasPrefix_char in Hd.
  cbn [strings.genSplit]. rewrite HasPrefix_char, Hd, (IH Ha).
  reflexivity.
Qed.

Lemma Split_piece (a rest : string) :
  strings.Contains a sep = false ->
  strings.Split (a ++ String c rest) sep = a :: strings.Split rest sep.
Proof. intros H. rewrite !Split_char. now apply genSplit_piece. Qed.

Lemma Split_last (a : string) :
  strings.Contains a sep = false -> strings.Split a sep = [a].
Proof. intros H. rewrite Split_char. now apply genSplit_last. Qed.

Lemma Split_head (s : string) :
  exists piece pieces, strings.Split s sep = piece :: pieces.
Proof.
  rewrite Split_char.
  destruct (strings.genSplit sep 0 s) as [|p ps] eqn:E; [|now eauto].
  now apply genSplit_nonempty in E.
Qed.

End SplitFacts.

(** * Ref normalization *)

Section RefFormat.

Lemma variants_agree (x : string) :
  Inline.ensureRefFormat x = Resolving.ensureRefFormat x.
Proof. reflexivity. Qed.

Lemma ensureRefFormat_prefixed (x : string) :
  strings.HasPrefix x "refs/heads/" = true ->
  Resolving.ensureRefFormat x = x.
Proof. unfold Resolving.ensureRefFormat. now intros ->. Qed.

Lemma ensureRefFormat_bare (x : string) :
  strings.HasPrefix x "refs/heads/" = false ->
  Resolving.ensureRefFormat x = ("refs/heads/" ++ x)%string.
Proof.
  intros H. unfold Resolving.ensureRefFormat.
  rewrite (TrimPrefix_absent _ _ H), H. reflexivity.
Qed.

Lemma ensureRefFormat_HasPrefix (x : string) :
  strings.HasPrefix (Resolving.ensureRefFormat x) "refs/heads/" = true.
Proof.
  destruct (strings.HasPrefix x "refs/heads/") eqn:E.
  - now rewrite ensureRefFormat_prefixed.
  - rewrite (ensureRefFormat_bare _ E). apply HasPrefix_app.
Qed.

End RefFormat.

(** C6. Ref normalization is idempotent in both variants:
    [ensureRefFormat (ensureRefFormat x) = ensureRefFormat x] for every
    string [x]; it sends ["main"] to ["refs/heads/main"] and leaves
    ["refs/heads/main"] as it is. *)
Theorem ensureRefFormat_idempotent :
  (forall x : string,
      Resolving.ensureRefFormat (Resolving.ensureRefFormat x)
      = Resolving.ensureRefFormat x)
  /\ (forall x : string,
      Inline.ensureRefFormat (Inline.ensureRefFormat x)
      = Inline.ensureRefFormat x)
  /\ Resolving.ensureRefFormat "main" = "refs/heads/main"
  /\ Resolving.ensureRefFormat "refs/heads/main" = "refs/heads/main"
  /\ Inline.ensureRefFormat "main" = "refs/heads/main"
  /\ Inline.ensureRefFormat "refs/heads/main" = "refs/heads/main".
Proof.
  assert (idem : forall x, Resolving.ensureRefFormat (Resolving.ensureRefFormat x)
                           = Resolving.ensureRefFormat x).
  { intros x. apply ensureRefFormat_prefixed, ensureRefFormat_HasPrefix. }
  split; [exact idem|].
  split; [exact idem|].
  repeat split; reflexivity.
Qed.

(** C7. The [TrimPrefix] inside [ensureRefFormat] never changes its
    argument: in both variants the function equals the plain prefix check
    plus concatenation, on every input. *)
Theorem ensureRefFormat_simplifies :
  forall x : string,
    Resolving.ensureRefFormat x = ensureRefFormat_simplified x
    /\ Inline.ensureRefFormat x = ensureRefFormat_simplified x.
Proof.
  intros x.
  enough (Resolving.ensureRefFormat x = ensureRefFormat_simplified x) as H
      by (split; [exact H | rewrite <- H; apply variants_agree]).
  unfold ensureRefFormat_simplified.
  destruct (strings.HasPrefix x "refs/heads/") eqn:E.
  - now apply ensureRefFormat_prefixed.
  - now apply ensureRefFormat_bare.
Qed.

(** * The URL parser *)

Section Parser.

Lemma Sprintf_org (organization : string) :
  fmt.Sprintf "https://dev.azure.com/%s" [fmt.str organization]
  = ("https://dev.azure.com/" ++ organization)%string.
Proof.
  cbn [fmt.Sprintf Ascii.eqb Bool.eqb fmt.text].
  now rewrite app_empty_r.
Qed.

(** The first branch of the parser is the documented rule. *)
Lemma parse_dev_azure (repoURL : string) :
  strings.Contains repoURL "dev.azure.com" = true ->
  Resolving.parseAzureDevOpsURL repoURL = devAzureRule repoURL.
Proof.
  intros H. unfold Resolving.parseAzureDevOpsURL, devAzureRule.
  rewrite H.
  destruct (strings.Split _ "/") as [|o [|p [|g [|r rest]]]]; reflexivity.
Qed.

Lemma devAzureRule_segments (repoURL : string) :
  let parts :=
    strings.Split (strings.TrimPrefix repoURL "https://dev.azure.com/") "/" in
  4 <= List.length parts ->
  devAzureRule repoURL
  = Returns (nth 0 parts "", nth 1 parts "",
             strings.TrimSuffix (nth 3 parts "") ".git", None).
Proof.
  unfold devAzureRule. cbv zeta.
  destruct (strings.Split _ "/") as [|o [|p [|g [|r rest]]]];
    simpl List.length; intros L; try lia.
  reflexivity.
Qed.

Lemma devAzureRule_too_short (repoURL : string) :
  List.length
    (strings.Split (strings.TrimPrefix repoURL "https://dev.azure.com/") "/") < 4 ->
  devAzureRule repoURL
  = Returns ("", "", "",
             Some (errorString "invalid Azure DevOps repository URL format")).
Proof.
  unfold devAzureRule.
  destruct (strings.Split _ "/") as [|o [|p [|g [|r rest]]]];
    simpl List.length; intros L; try lia; reflexivity.
Qed.

(** The second branch, by the number of segments of the whole URL. *)
Lemma parse_visualstudio_short (repoURL : string) :
  strings.Contains repoURL "dev.azure.com" = false ->
  strings.Contains repoURL ".visualstudio.com" = true ->
  List.length (strings.Split repoURL "/") < 5 ->
  Resolving.parseAzureDevOpsURL repoURL
  = Returns ("", "", "",
             Some (errorString "invalid Azure DevOps repository URL format")).
Proof.
  intros H1 H2 L. unfold Resolving.parseAzureDevOpsURL. rewrite H1, H2.
  apply Nat.ltb_lt in L. rewrite L. reflexivity.
Qed.

Lemma parse_visualstudio_six (repoURL : string)
    (scheme empty host proj mid repo : string) (more : list string) :
  strings.Contains repoURL "dev.azure.com" = false ->
  strings.Contains repoURL ".visualstudio.com" = true ->
  strings.Split repoURL "/" = scheme :: empty :: host :: proj :: mid :: repo :: more ->
  Resolving.parseAzureDevOpsURL repoURL
  = Returns (hd "" (strings.Split host "."), proj,
             strings.TrimSuffix repo ".git", None).
Proof.
  intros H1 H2 E. unfold Resolving.parseAzureDevOpsURL. rewrite H1, H2, E.
  destruct (Split_head "." host) as (org & labels & Eh).
  slice_step.
  rewrite Eh. reflexivity.
Qed.

Lemma Inline_OpenPR_parsed (svc : git.Service)
    (repoURL title description targetBranch sourceBranch : string)
    (creds : RepoCredentials) (org proj mid repo : string) (more : list string) :
  strings.Split (strings.TrimPrefix repoURL "https://dev.azure.com/") "/"
  = org :: proj :: mid :: repo :: more ->
  Inline.OpenPR svc repoURL title description targetBranch sourceBranch creds
  = Inline_submit svc org proj (strings.TrimSuffix repo ".git")
      title description targetBranch sourceBranch creds.
Proof. intros E. unfold Inline.OpenPR. rewrite E. reflexivity. Qed.

Lemma Inline_OpenPR_too_short (svc : git.Service)
    (repoURL title description targetBranch sourceBranch : string)
    (creds : RepoCredentials) (tr : list Call) :
  List.length
    (strings.Split (strings.TrimPrefix repoURL "https://dev.azure.com/") "/") < 4 ->
  Inline.OpenPR svc repoURL title description targetBranch sourceBranch creds tr
  = (Returns ("", Some (errorString "invalid Azure DevOps repository URL format")),
     tr).
Proof.
  intros L. unfold Inline.OpenPR. apply Nat.ltb_lt in L. rewrite L.
  reflexivity.
Qed.

(** Whatever the service answers, the first request of [Inline_submit] is
    the connection attempt for the organization it was given. *)
Lemma Inline_submit_dials (svc : git.Service)
    (org proj repo title description targetBranch sourceBranch : string)
    (creds : RepoCredentials) (tr : list Call) :
  exists out later,
    Inline_submit svc org proj repo title description targetBranch
      sourceBranch creds tr
    = (out,
       tr ++ CallNewClient
               {| BaseUrl := ("https://dev.azure.com/" ++ org)%string;
                  PersonalAccessToken := Password creds |} :: later).
Proof.
  unfold Inline_submit. rewrite Sprintf_org.
  unfold NewPatConnection, git.NewClient, git.callCreatePullRequest.
  go_step.
  destruct (git.dial svc _) as [[client|] [e|]];
    go_step.
  - exists (Returns ("", Some (fmt.Errorf
             "error creating Azure DevOps Git client: %w" [fmt.err e]))), [].
    reflexivity.
  - destruct (git.CreatePullRequest client _) as [[pr|] [e|]];
      go_step;
      try (destruct (Url pr));
      eexists; eexists; rewrite <- app_assoc; reflexivity.
  - exists (Returns ("", Some (fmt.Errorf
             "error creating Azure DevOps Git client: %w" [fmt.err e]))), [].
    reflexivity.
  - eexists; exists []; reflexivity.
Qed.

End Parser.

(** C1. On a [.visualstudio.com] URL (without [dev.azure.com]) whose split
    on [/] has exactly five segments, [parseAzureDevOpsURL] does not return
    an error: the length guard lets it through and reading segment 5 panics
    with an index out of range. *)
Theorem visualstudio_five_segments_panic (repoURL : string) :
  strings.Contains repoURL "dev.azure.com" = false ->
  strings.Contains repoURL ".visualstudio.com" = true ->
  List.length (strings.Split repoURL "/") = 5 ->
  Resolving.parseAzureDevOpsURL repoURL = Panics (indexOutOfRange 5 5).
Proof.
  intros H1 H2 L. unfold Resolving.parseAzureDevOpsURL. rewrite H1, H2.
  destruct (strings.Split repoURL "/")
    as [|scheme [|empty [|host [|proj [|mid [|x more]]]]]]; try discriminate L.
  destruct (Split_head "." host) as (org & labels & Eh).
  slice_step.
  rewrite Eh. reflexivity.
Qed.

Lemma visualstudio_five_segments_panic_witness :
  Resolving.parseAzureDevOpsURL "https://myorg.visualstudio.com/_git/myrepo"
  = Panics (indexOutOfRange 5 5).
Proof. apply visualstudio_five_segments_panic; reflexivity. Defined.

(** C8. For every string that contains [dev.azure.com] and whose split on
    [/], after stripping a leading [https://dev.azure.com/], has at least
    four segments, the parse succeeds with segment 0, segment 1 and segment
    3 without its [.git] suffix, whatever the segments hold; the inline
    variant cuts the same three names out of the URL. *)
Theorem dev_azure_parse_counts_segments (repoURL : string) :
  strings.Contains repoURL "dev.azure.com" = true ->
  4 <= List.length
         (strings.Split (strings.TrimPrefix repoURL "https://dev.azure.com/") "/") ->
  let parts :=
    strings.Split (strings.TrimPrefix repoURL "https://dev.azure.com/") "/" in
  Resolving.parseAzureDevOpsURL repoURL
  = Returns (nth 0 parts "", nth 1 parts "",
             strings.TrimSuffix (nth 3 parts "") ".git", None)
  /\ forall svc title description targetBranch sourceBranch creds,
      Inline.OpenPR svc repoURL title description targetBranch sourceBranch creds
      = Inline_submit svc (nth 0 parts "") (nth 1 parts "")
          (strings.TrimSuffix (nth 3 parts "") ".git")
          title description targetBranch sourceBranch creds.
Proof.
  intros H L parts. split.
  - rewrite (parse_dev_azure _ H). now apply devAzureRule_segments.
  - intros. subst parts.
    destruct (strings.Split _ "/") as [|o [|p [|g [|r rest]]]] eqn:E;
      simpl in L; try lia.
    now apply Inline_OpenPR_parsed with (mid := g) (more := rest).
Qed.

Lemma dev_azure_parse_counts_segments_witness :
  Resolving.parseAzureDevOpsURL "http://dev.azure.com/a/b/c"
  = Returns ("http:", "", "a", None)
  /\ forall svc title description targetBranch sourceBranch creds,
      Inline.OpenPR svc "http://dev.azure.com/a/b/c"
        title description targetBranch sourceBranch creds
      = Inline_submit svc "http:" "" "a"
          title description targetBranch sourceBranch creds.
Proof.
  exact (dev_azure_parse_counts_segments "http://dev.azure.com/a/b/c"
           eq_refl ltac:(vm_compute; lia)).
Defined.

(** C9. The [dev.azure.com] branch takes precedence: on every URL that
    contains both [dev.azure.com] and [.visualstudio.com] the parser gives
    what the dev.azure.com rule gives (segments 0, 1 and 3 after stripping
    the host prefix). *)
Theorem dev_azure_takes_precedence (repoURL : string) :
  strings.Contains repoURL "dev.azure.com" = true ->
  strings.Contains repoURL ".visualstudio.com" = true ->
  Resolving.parseAzureDevOpsURL repoURL = devAzureRule repoURL.
Proof.
  intros Hdev Hvs.
  unfold Resolving.parseAzureDevOpsURL, devAzureRule.
  (* the first test decides; the second host name is never looked at *)
  rewrite Hdev. clear Hvs.
  destruct (strings.Split _ "/") as [|org [|proj [|mid [|repo more]]]];
    slice_step; reflexivity.
Qed.

Lemma dev_azure_takes_precedence_witness :
  Resolving.parseAzureDevOpsURL
    "https://dev.azure.com/a.visualstudio.com/b/_git/c/d"
  = Returns ("a.visualstudio.com", "b", "c", None)
  /\ visualStudioRule "https://dev.azure.com/a.visualstudio.com/b/_git/c/d"
     = Some ("dev", "a.visualstudio.com", "_git").
Proof.
  split; [|reflexivity].
  rewrite (dev_azure_takes_precedence
             "https://dev.azure.com/a.visualstudio.com/b/_git/c/d");
    reflexivity.
Defined.

(** C4. In the credential-checking variant an empty password makes
    [OpenPR] return its error at once: the log of requests is left as it
    was, whatever the other arguments and the service are. *)
Theorem OpenPR_empty_password (svc : git.Service)
    (repoURL title description targetBranch sourceBranch : string)
    (creds : RepoCredentials) (tr : list Call) :
  Password creds = "" ->
  Resolving.OpenPR svc repoURL title description targetBranch sourceBranch
    creds tr
  = (Returns ("", Some (errorString
       "Azure DevOps requires a Personal Access Token (PAT) as password")),
     tr).
Proof.
  intros H. unfold Resolving.OpenPR. rewrite H. reflexivity.
Qed.

Lemma OpenPR_empty_password_witness :
  Resolving.OpenPR sampleService
    "https://dev.azure.com/myorg/myproj/_git/myrepo" "Sync" "" "main" "render"
    {| Password := "" |} []
  = (Returns ("", Some (errorString
       "Azure DevOps requires a Personal Access Token (PAT) as password")),
     []).
Proof. apply OpenPR_empty_password. reflexivity. Defined.

(** * Paths: joining and splitting on one byte *)

Section Paths.

Variable c : ascii.

Let sep : string := String c EmptyString.

Lemma Contains_app_char (a b : string) :
  strings.Contains (a ++ b) sep
  = strings.Contains a sep || strings.Contains b sep.
Proof.
  unfold sep. induction a as [|d a IH].
  - simpl append. destruct b; reflexivity.
  - change (String d a ++ b)%string with (String d (a ++ b)).
    rewrite !Contains_cons, !HasPrefix_char, IH. apply orb_assoc.
Qed.

(** Splitting undoes joining, as long as no piece holds the separator. *)
Lemma Split_concat (pieces : list string) :
  pieces <> [] ->
  Forall (fun piece => strings.Contains piece sep = false) pieces ->
  strings.Split (String.concat sep pieces) sep = pieces.
Proof.
  intros Hne Hall. induction Hall as [|a l Ha Hl IH]; [congruence|].
  destruct l as [|b l].
  - simpl String.concat. now apply Split_last.
  - change (String.concat sep (a :: b :: l))
      with (a ++ String c (String.concat sep (b :: l)))%string.
    unfold sep in *. rewrite Split_piece by exact Ha.
    f_equal. apply IH. discriminate.
Qed.

End Paths.

(** * Repository lookup *)

Section Lookup.

Variable repository : string.

Lemma rangeRepos_passes (before rest : list GitRepository) :
  Forall (passedOver repository) before ->
  Resolving.rangeRepos repository (before ++ rest)
  = Resolving.rangeRepos repository rest.
Proof.
  induction 1 as [|repo before (name & Hn & Hne) _ IH]; [reflexivity|].
  simpl. rewrite Hn. cbn [deref].
  apply String.eqb_neq in Hne. rewrite Hne. exact IH.
Qed.

Lemma rangeRepos_hit (repo : GitRepository) (after : list GitRepository) :
  Name repo = Some repository ->
  Resolving.rangeRepos repository (repo :: after)
  = Returns (Some (Id repo, None)).
Proof. intros H. simpl. rewrite H. cbn [deref]. now rewrite String.eqb_refl. Qed.

Lemma rangeRepos_miss (l : list GitRepository) :
  Forall (passedOver repository) l ->
  Resolving.rangeRepos repository l = Returns None.
Proof.
  intros H. rewrite <- (app_nil_r l). now rewrite rangeRepos_passes.
Qed.

(** A listing whose entries all carry a name and that holds the requested
    name splits at the earliest entry of that name. *)
Lemma first_match_split (l : list GitRepository) :
  Forall (fun repo => Name repo <> None) l ->
  (exists repo, In repo l /\ Name repo = Some repository) ->
  exists before repo after,
    l = before ++ repo :: after
    /\ Forall (passedOver repository) before
    /\ Name repo = Some repository.
Proof.
  induction 1 as [|first l Hfirst _ IH]; intros (repo & Hin & Hname).
  - destruct Hin.
  - destruct (Name first) as [name|] eqn:E; [|congruence].
    destruct (String.eqb_spec name repository) as [->|Hne].
    + exists [], first, l. repeat split; [constructor | exact E].
    + destruct Hin as [->|Hin]; [congruence|].
      destruct IH as (before & hit & after & -> & Hb & Hhit); [now eauto|].
      exists (first :: before), hit, after. repeat split; trivial.
      constructor; [now exists name | exact Hb].
Qed.

Variable client : git.Client.
Variable project : string.
Variable tr : list Call.

Let args : GetRepositoriesArgs := {| GetRepositories_Project := Some project |}.

(** [getRepositoryID] makes exactly one request; what it returns is read
    off the answer. *)
Lemma getRepositoryID_run :
  Resolving.getRepositoryID (Some client) project repository tr
  = (match git.GetRepositories client args with
     | (_, Some e) =>
         Returns (None,
                  Some (wrapError ("error listing repositories: " ++ Error e) e))
     | (repos, None) =>
         match match repos with
               | Some l => Resolving.rangeRepos repository l
               | None => Returns None
               end with
         | Returns (Some r) => Returns r
         | Returns None =>
             Returns (None,
                      Some (errorString
                              ("repository '" ++ repository
                               ++ "' not found in project '" ++ project ++ "'")))
         | Panics p => Panics p
         end
     end,
     tr ++ [CallGetRepositories args]).
Proof.
  unfold Resolving.getRepositoryID, git.callGetRepositories.
  go_step. fold args.
  destruct (git.GetRepositories client args) as [repos [e|]].
  - go_step. unfold fmt.Errorf.
    cbn [fmt.wrapped fmt.Sprintf Ascii.eqb Bool.eqb fmt.text].
    now rewrite app_empty_r.
  - destruct repos as [l|]; go_step;
      [destruct (Resolving.rangeRepos repository l) as [[r|]|p]|];
      reflexivity.
Qed.

Lemma getRepositoryID_found (before after : list GitRepository)
    (repo : GitRepository) :
  git.GetRepositories client args = (Some (before ++ repo :: after), None) ->
  Forall (passedOver repository) before ->
  Name repo = Some repository ->
  Resolving.getRepositoryID (Some client) project repository tr
  = (Returns (Id repo, None), tr ++ [CallGetRepositories args]).
Proof.
  intros E Hb Hn. rewrite getRepositoryID_run, E.
  now rewrite (rangeRepos_passes _ _ Hb), (rangeRepos_hit _ _ Hn).
Qed.

Lemma not_found_names_both :
  let msg := ("repository '" ++ repository
              ++ "' not found in project '" ++ project ++ "'")%string in
  strings.Contains msg repository = true
  /\ strings.Contains msg project = true.
Proof.
  split.
  - apply (Contains_middle "repository '" repository).
  - cbv zeta.
    rewrite <- (app_assoc_str repository "' not found in project '").
    rewrite <- (app_assoc_str "repository '").
    apply Contains_middle.
Qed.

End Lookup.

(** C5, as amended.  [getRepositoryID] makes one listing request and then:
    when the listing holds a repository of the requested name and every
    entry listed before the first such one carries a name, it returns that
    repository's ID and no error; when the listing call errors, it returns
    an error that wraps the underlying one; when the listing succeeds and
    is nil, empty, or made only of entries that carry other names, it
    returns an error whose message contains both the repository name and
    the project name. *)
Theorem getRepositoryID_outcomes (client : git.Client)
    (project repository : string) (tr : list Call) :
  let args := {| GetRepositories_Project := Some project |} in
  let listing := git.GetRepositories client args in
  let run := Resolving.getRepositoryID (Some client) project repository tr in
  (forall before repo after,
      listing = (Some (before ++ repo :: after), None) ->
      Forall (passedOver repository) before ->
      Name repo = Some repository ->
      run = (Returns (Id repo, None), tr ++ [CallGetRepositories args]))
  /\ (forall repos e,
      listing = (repos, Some e) ->
      exists w,
        run = (Returns (None, Some w), tr ++ [CallGetRepositories args])
        /\ Unwrap w = Some e)
  /\ (forall repos,
      listing = (repos, None) ->
      repos = None
      \/ (exists l, repos = Some l /\ Forall (passedOver repository) l) ->
      exists e,
        run = (Returns (None, Some e), tr ++ [CallGetRepositories args])
        /\ strings.Contains (Error e) repository = true
        /\ strings.Contains (Error e) project = true).
Proof.
  intros args listing run. subst listing run. repeat split.
  - intros before repo after E Hb Hn.
    now apply getRepositoryID_found with (before := before) (after := after).
  - intros repos e E. rewrite getRepositoryID_run. fold args. rewrite E.
    eexists. split; reflexivity.
  - intros repos E H. rewrite getRepositoryID_run. fold args. rewrite E.
    assert (match repos with
            | Some l => Resolving.rangeRepos repository l
            | None => Returns None
            end = Returns None) as ->.
    { destruct H as [-> | (l & -> & Hl)];
        [reflexivity | now apply rangeRepos_miss]. }
    eexists. split; [reflexivity|].
    apply not_found_names_both.
Qed.

Lemma getRepositoryID_outcomes_witness :
  Resolving.getRepositoryID (Some sampleClient) "myproj" "docs" []
  = (Returns (Some 1%N, None),
     [CallGetRepositories {| GetRepositories_Project := Some "myproj" |}])
  /\ exists w,
      Resolving.getRepositoryID (Some failingClient) "myproj" "docs" []
      = (Returns (None, Some w),
         [CallGetRepositories {| GetRepositories_Project := Some "myproj" |}])
      /\ Unwrap w = Some (errorString "timeout").
Proof.
  split.
  - apply (proj1 (getRepositoryID_outcomes sampleClient "myproj" "docs" []))
      with (before := []) (repo := {| Id := Some 1%N; Name := Some "docs" |})
           (after := [ {| Id := Some 2%N; Name := Some "myrepo" |};
                       {| Id := Some 3%N; Name := Some "myrepo" |} ]);
      [reflexivity | constructor | reflexivity].
  - apply (proj1 (proj2 (getRepositoryID_outcomes failingClient "myproj" "docs" [])))
      with (repos := None).
    reflexivity.
Defined.

(** C5, the claim as written, fails on a listing with a nameless entry:
    nothing in the listing is called [other], yet [getRepositoryID] does
    not return the not-found error; reading the missing name panics. *)
Lemma getRepositoryID_nameless_entry_panics :
  git.GetRepositories namelessClient
    {| GetRepositories_Project := Some "myproj" |}
  = (Some [ {| Id := Some 1%N; Name := None |};
            {| Id := Some 2%N; Name := Some "myrepo" |} ], None)
  /\ Resolving.getRepositoryID (Some namelessClient) "myproj" "other" []
     = (Panics nilDereference,
        [CallGetRepositories {| GetRepositories_Project := Some "myproj" |}]).
Proof. split; reflexivity. Qed.

(** C10, as amended.  When the listing holds a repository of the requested
    name and every entry listed before the earliest such one carries a
    name, [getRepositoryID] returns the ID of that earliest one and no
    error, whatever follows it in the listing (further repositories of the
    same name included). *)
Theorem getRepositoryID_first_match (client : git.Client)
    (project repository : string) (tr : list Call)
    (before after : list GitRepository) (repo : GitRepository) :
  git.GetRepositories client {| GetRepositories_Project := Some project |}
  = (Some (before ++ repo :: after), None) ->
  Forall (passedOver repository) before ->
  Name repo = Some repository ->
  Resolving.getRepositoryID (Some client) project repository tr
  = (Returns (Id repo, None),
     tr ++ [CallGetRepositories {| GetRepositories_Project := Some project |}]).
Proof.
  intros Hlisting Hbefore Hname.
  rewrite getRepositoryID_run, Hlisting.
  (* the scan walks over [before], stops at [repo], never reads [after] *)
  rewrite (rangeRepos_passes repository before (repo :: after) Hbefore).
  rewrite (rangeRepos_hit repository repo after Hname).
  reflexivity.
Qed.

Lemma getRepositoryID_first_match_witness :
  Resolving.getRepositoryID (Some sampleClient) "myproj" "myrepo" []
  = (Returns (Some 2%N, None),
     [CallGetRepositories {| GetRepositories_Project := Some "myproj" |}]).
Proof.
  apply (getRepositoryID_first_match sampleClient "myproj" "myrepo" []
           [ {| Id := Some 1%N; Name := Some "docs" |} ]
           [ {| Id := Some 3%N; Name := Some "myrepo" |} ]
           {| Id := Some 2%N; Name := Some "myrepo" |}).
  - reflexivity.
  - constructor; [|constructor]. exists "docs". split; [reflexivity|discriminate].
  - reflexivity.
Defined.

(** C10, the claim as written, fails when a nameless entry is listed before
    the match: the listing holds [myrepo], yet the result is a panic and
    not its ID. *)
Lemma getRepositoryID_match_behind_nameless_entry :
  In {| Id := Some 2%N; Name := Some "myrepo" |}
     [ {| Id := Some 1%N; Name := None |};
       {| Id := Some 2%N; Name := Some "myrepo" |} ]
  /\ Resolving.getRepositoryID (Some namelessClient) "myproj" "myrepo" []
     = (Panics nilDereference,
        [CallGetRepositories {| GetRepositories_Project := Some "myproj" |}]).
Proof. split; [right; left; reflexivity | reflexivity]. Qed.

(** C2, as amended.  On every URL that contains neither [dev.azure.com]
    nor [.visualstudio.com] the standalone parser returns the
    "unsupported" error.  The inline variant has no host check: on such a
    URL it returns the "invalid format" error, without any request, when
    the URL's split on [/] has fewer than four segments, and otherwise it
    goes on to open a connection for segment 0. *)
Theorem foreign_host_parsing (repoURL : string) :
  strings.Contains repoURL "dev.azure.com" = false ->
  strings.Contains repoURL ".visualstudio.com" = false ->
  Resolving.parseAzureDevOpsURL repoURL
  = Returns ("", "", "",
             Some (errorString "unsupported Azure DevOps repository URL format"))
  /\ forall svc title description targetBranch sourceBranch creds tr,
      let parts := strings.Split repoURL "/" in
      let run := Inline.OpenPR svc repoURL title description targetBranch
                   sourceBranch creds tr in
      (List.length parts < 4 ->
       run = (Returns ("", Some (errorString
                "invalid Azure DevOps repository URL format")), tr))
      /\ (4 <= List.length parts ->
          exists out later,
            run = (out,
                   tr ++ CallNewClient
                           {| BaseUrl :=
                                ("https://dev.azure.com/" ++ nth 0 parts "")%string;
                              PersonalAccessToken := Password creds |}
                      :: later)).
Proof.
  intros H1 H2. split.
  - unfold Resolving.parseAzureDevOpsURL. now rewrite H1, H2.
  - intros svc title description targetBranch sourceBranch creds tr parts run.
    subst parts run. pose proof (no_host_TrimPrefix _ H1) as T. split; intros L.
    + apply Inline_OpenPR_too_short. now rewrite T.
    + destruct (strings.Split repoURL "/") as [|o [|p [|g [|r rest]]]] eqn:E;
        simpl in L; try lia.
      rewrite (Inline_OpenPR_parsed svc repoURL title description targetBranch
                 sourceBranch creds o p g r rest) by now rewrite T.
      apply Inline_submit_dials.
Qed.

Lemma foreign_host_parsing_witness :
  Resolving.parseAzureDevOpsURL "https://github.com/o/p/_git/r"
  = Returns ("", "", "",
             Some (errorString "unsupported Azure DevOps repository URL format"))
  /\ exists out later,
      Inline.OpenPR sampleService "https://github.com/o/p/_git/r"
        "Sync" "" "main" "render" {| Password := "pat" |} []
      = (out,
         [] ++ CallNewClient {| BaseUrl := "https://dev.azure.com/https:";
                                PersonalAccessToken := "pat" |} :: later).
Proof.
  destruct (foreign_host_parsing "https://github.com/o/p/_git/r"
              eq_refl eq_refl) as [P Q].
  split; [exact P|].
  apply (proj2 (Q sampleService "Sync" "" "main" "render"
                  {| Password := "pat" |} [])).
  vm_compute. lia.
Defined.

(** C2, the claim as written, fails for the inline variant: a GitHub URL
    contains neither host name, and [Inline.OpenPR] does not reject it; it
    opens a connection for ["https:"] and creates the pull request. *)
Lemma inline_variant_accepts_foreign_host :
  strings.Contains "https://github.com/o/p/_git/r" "dev.azure.com" = false
  /\ strings.Contains "https://github.com/o/p/_git/r" ".visualstudio.com" = false
  /\ Inline.OpenPR sampleService "https://github.com/o/p/_git/r"
       "Sync" "" "main" "render" {| Password := "pat" |} []
     = (Returns ("https://dev.azure.com/myorg/_apis/pr/1", None),
        [ CallNewClient {| BaseUrl := "https://dev.azure.com/https:";
                           PersonalAccessToken := "pat" |};
          CallCreatePullRequest
            {| Project := Some "";
               RepositoryId := None;
               GitPullRequestToCreate :=
                 Some {| Title := Some "Sync";
                         Description := Some "";
                         SourceRefName := Some "refs/heads/render";
                         TargetRefName := Some "refs/heads/main";
                         Repository :=
                           Some {| Id := None; Name := Some "o" |};
                         Url := None |} |} ]).
Proof. repeat split; reflexivity. Qed.

(** * URL shapes *)

Section Shapes.

Variables o p m r : string.

Hypothesis o_segment : strings.Contains o "/" = false.
Hypothesis p_segment : strings.Contains p "/" = false.
Hypothesis m_segment : strings.Contains m "/" = false.
Hypothesis r_segment : strings.Contains r "/" = false.

Lemma Split_dev_azure_path :
  strings.Split (o ++ "/" ++ p ++ "/" ++ m ++ "/" ++ r) "/" = [o; p; m; r].
Proof.
  apply (Split_concat "/" [o; p; m; r]); [discriminate|].
  repeat constructor; assumption.
Qed.

Lemma Split_visualstudio_url :
  strings.Split
    ("https://" ++ o ++ ".visualstudio.com/" ++ p ++ "/" ++ m ++ "/" ++ r) "/"
  = ["https:"; ""; (o ++ ".visualstudio.com")%string; p; m; r].
Proof.
  rewrite <- (Split_concat "/"
                ["https:"; ""; (o ++ ".visualstudio.com")%string; p; m; r]);
    [ | discriminate | ].
  - cbn [String.concat]. rewrite app_assoc_str. reflexivity.
  - repeat constructor; try assumption; try reflexivity.
    rewrite Contains_app_char, o_segment. reflexivity.
Qed.

Lemma visualstudio_url_Contains :
  strings.Contains
    ("https://" ++ o ++ ".visualstudio.com/" ++ p ++ "/" ++ m ++ "/" ++ r)
    ".visualstudio.com" = true.
Proof.
  apply (Contains_app_r "https://"), Contains_app_r, Contains_prefix.
  apply (HasPrefix_app ".visualstudio.com").
Qed.

Lemma host_first_label :
  strings.Contains o "." = false ->
  strings.Split (o ++ ".visualstudio.com") "." = [o; "visualstudio"; "com"].
Proof.
  intros H. apply (Split_concat "." [o; "visualstudio"; "com"]);
    [discriminate|].
  repeat constructor; assumption.
Qed.

End Shapes.

Section DevAzureShape.

Variables o p r : string.

Hypothesis o_segment : strings.Contains o "/" = false.
Hypothesis p_segment : strings.Contains p "/" = false.
Hypothesis r_segment : strings.Contains r "/" = false.

Lemma Split_dev_azure_shape :
  strings.Split
    (strings.TrimPrefix
       ("https://dev.azure.com/" ++ o ++ "/" ++ p ++ "/_git/" ++ r)
       "https://dev.azure.com/") "/"
  = [o; p; "_git"; r].
Proof.
  rewrite TrimPrefix_app.
  now apply (Split_dev_azure_path o p "_git" r).
Qed.

Lemma parse_dev_azure_shape :
  Resolving.parseAzureDevOpsURL
    ("https://dev.azure.com/" ++ o ++ "/" ++ p ++ "/_git/" ++ r)
  = Returns (o, p, strings.TrimSuffix r ".git", None).
Proof.
  rewrite parse_dev_azure
    by apply host_prefix_Contains, HasPrefix_app.
  unfold devAzureRule. now rewrite Split_dev_azure_shape.
Qed.

End DevAzureShape.

(** C3, as amended.  With [o], [p] and [r] free of [/]: on
    [https://dev.azure.com/o/p/_git/r] both variants cut out organization
    [o], project [p] and repository [r] without one [.git] suffix (so
    [.../_git/r.git] gives [r]); and on [https://o.visualstudio.com/p/m/r],
    with [o] also free of [.] and [m] free of [/], the standalone parser
    returns the same triple provided the URL does not contain
    [dev.azure.com]. *)
Theorem url_shapes_parse (o p r : string) :
  strings.Contains o "/" = false ->
  strings.Contains p "/" = false ->
  strings.Contains r "/" = false ->
  Resolving.parseAzureDevOpsURL
    ("https://dev.azure.com/" ++ o ++ "/" ++ p ++ "/_git/" ++ r)
  = Returns (o, p, strings.TrimSuffix r ".git", None)
  /\ Resolving.parseAzureDevOpsURL
       ("https://dev.azure.com/" ++ o ++ "/" ++ p ++ "/_git/" ++ r ++ ".git")
     = Returns (o, p, r, None)
  /\ (forall svc title description targetBranch sourceBranch creds,
       Inline.OpenPR svc
         ("https://dev.azure.com/" ++ o ++ "/" ++ p ++ "/_git/" ++ r)
         title description targetBranch sourceBranch creds
       = Inline_submit svc o p (strings.TrimSuffix r ".git")
           title description targetBranch sourceBranch creds)
  /\ (forall m,
       strings.Contains m "/" = false ->
       strings.Contains o "." = false ->
       strings.Contains
         ("https://" ++ o ++ ".visualstudio.com/" ++ p ++ "/" ++ m ++ "/" ++ r)
         "dev.azure.com" = false ->
       Resolving.parseAzureDevOpsURL
         ("https://" ++ o ++ ".visualstudio.com/" ++ p ++ "/" ++ m ++ "/" ++ r)
       = Returns (o, p, strings.TrimSuffix r ".git", None)).
Proof.
  intros Ho Hp Hr. repeat split.
  - now apply parse_dev_azure_shape.
  - rewrite parse_dev_azure_shape; trivial.
    + now rewrite TrimSuffix_app.
    + now rewrite (Contains_app_char "/"), Hr.
  - intros. apply Inline_OpenPR_parsed with (mid := "_git") (more := []).
    now apply Split_dev_azure_shape.
  - intros m Hm Hdot Hhost.
    rewrite (parse_visualstudio_six _ "https:" "" (o ++ ".visualstudio.com")
               p m r [] Hhost).
    + now rewrite (host_first_label o Hdot).
    + apply visualstudio_url_Contains.
    + now apply Split_visualstudio_url.
Qed.

Lemma url_shapes_parse_witness :
  Resolving.parseAzureDevOpsURL "https://dev.azure.com/myorg/myproj/_git/myrepo"
  = Returns ("myorg", "myproj", "myrepo", None)
  /\ Resolving.parseAzureDevOpsURL
       "https://dev.azure.com/myorg/myproj/_git/myrepo.git"
     = Returns ("myorg", "myproj", "myrepo", None)
  /\ Resolving.parseAzureDevOpsURL
       "https://myorg.visualstudio.com/myproj/_git/myrepo"
     = Returns ("myorg", "myproj", "myrepo", None).
Proof.
  destruct (url_shapes_parse "myorg" "myproj" "myrepo" eq_refl eq_refl eq_refl)
    as (D & G & _ & V).
  split; [exact D|]. split; [exact G|].
  exact (V "_git" eq_refl eq_refl eq_refl).
Defined.

(** C3, the claim as written, fails for the [visualstudio.com] shape: in
    [https://o.visualstudio.com/dev.azure.com/_git/r] the project is called
    [dev.azure.com], so the first branch of the parser runs and the result
    is not organization [o], project [dev.azure.com], repository [r]. *)
Lemma visualstudio_shape_with_dev_azure_segment :
  "https://o.visualstudio.com/dev.azure.com/_git/r"
  = ("https://" ++ "o" ++ ".visualstudio.com/" ++ "dev.azure.com" ++ "/"
     ++ "_git" ++ "/" ++ "r")%string
  /\ Resolving.parseAzureDevOpsURL
       "https://o.visualstudio.com/dev.azure.com/_git/r"
     = Returns ("https:", "", "dev.azure.com", None)
  /\ Resolving.parseAzureDevOpsURL
       "https://o.visualstudio.com/dev.azure.com/_git/r"
     <> Returns ("o", "dev.azure.com", "r", None).
Proof. repeat split; try reflexivity. discriminate. Qed.

(** * Runs of the model *)

Example Split_path : strings.Split "a/b//c" "/" = ["a"; "b"; ""; "c"].
Proof. reflexivity. Qed.

Example Split_empty_string : strings.Split "" "/" = [""].
Proof. reflexivity. Qed.

Example Split_long_separator :
  strings.Split "a--b---c" "--" = ["a"; "b"; "-c"].
Proof. reflexivity. Qed.

Example TrimSuffix_once :
  strings.TrimSuffix "repo.git.git" ".git" = "repo.git".
Proof. reflexivity. Qed.

Example Index_found : strings.Index "chicken" "ken" = Some 4.
Proof. reflexivity. Qed.

Example Errorf_wraps :
  fmt.Errorf "error listing repositories: %w" [fmt.err (errorString "timeout")]
  = wrapError "error listing repositories: timeout" (errorString "timeout").
Proof. reflexivity. Qed.

(** The documentation's end-to-end example. *)
Example OpenPR_end_to_end :
  Resolving.OpenPR sampleService
    "https://dev.azure.com/myorg/myproj/_git/myrepo" "Sync" "" "main" "render"
    {| Password := "pat" |} []
  = (Returns ("https://dev.azure.com/myorg/_apis/pr/1", None),
     [ CallNewClient {| BaseUrl := "https://dev.azure.com/myorg";
                        PersonalAccessToken := "pat" |};
       CallGetRepositories {| GetRepositories_Project := Some "myproj" |};
       CallCreatePullRequest
         {| Project := Some "myproj";
            RepositoryId := Some 2%N;
            GitPullRequestToCreate :=
              Some {| Title := Some "Sync";
                      Description := Some "";
                      SourceRefName := Some "refs/heads/render";
                      TargetRefName := Some "refs/heads/main";
                      Repository := None;
                      Url := None |} |} ]).
Proof. reflexivity. Qed.

Example visualstudio_too_short :
  Resolving.parseAzureDevOpsURL "https://myorg.visualstudio.com/_git"
  = Returns ("", "", "",
             Some (errorString "invalid Azure DevOps repository URL format")).
Proof. reflexivity. Qed.

(** * The exported operation, request by request *)

Section CreateStep.

Variable client : git.Client.
Variable args : CreatePullRequestArgs.
Variable tr : list Call.

Lemma Errorf_created (e : error) :
  fmt.Errorf "error creating pull request: %w" [fmt.err e]
  = wrapError ("error creating pull request: " ++ Error e) e.
Proof.
  unfold fmt.Errorf.
  cbn [fmt.wrapped fmt.Sprintf Ascii.eqb Bool.eqb fmt.text].
  now rewrite app_empty_r.
Qed.

Lemma Errorf_client (e : error) :
  fmt.Errorf "error creating Azure DevOps Git client: %w" [fmt.err e]
  = wrapError ("error creating Azure DevOps Git client: " ++ Error e) e.
Proof.
  unfold fmt.Errorf.
  cbn [fmt.wrapped fmt.Sprintf Ascii.eqb Bool.eqb fmt.text].
  now rewrite app_empty_r.
Qed.

(** The tail shared by both variants: send the create request, then read
    the answer. *)
Lemma create_step :
  ('(pr, err) <- git.callCreatePullRequest (Some client) args ;;
   match err with
   | Some e =>
       ret ("", Some (fmt.Errorf "error creating pull request: %w" [fmt.err e]))
   | None =>
       created <- pure (deref pr) ;;
       url <- pure (deref (Url created)) ;;
       ret (url, None)
   end) tr
  = (createdURL (git.CreatePullRequest client args),
     tr ++ [CallCreatePullRequest args]).
Proof.
  unfold git.callCreatePullRequest, createdURL. go_step.
  destruct (git.CreatePullRequest client args) as [[pr|] [e|]]; go_step;
    rewrite ?Errorf_created; try reflexivity.
  destruct (Url pr); reflexivity.
Qed.

End CreateStep.

Section InlineRuns.

Variable svc : git.Service.
Variables org proj repo title description targetBranch sourceBranch : string.
Variable creds : RepoCredentials.
Variable tr : list Call.

(** [Inline_submit], read off the answers of the service. *)
Lemma Inline_submit_run :
  Inline_submit svc org proj repo title description targetBranch sourceBranch
    creds tr
  = match git.dial svc (patConnection org creds) with
    | (_, Some e) =>
        (Returns ("", Some (wrapError
            ("error creating Azure DevOps Git client: " ++ Error e) e)),
         tr ++ [CallNewClient (patConnection org creds)])
    | (Some client, None) =>
        (createdURL
           (git.CreatePullRequest client
              (pullRequestByName proj repo title description targetBranch
                 sourceBranch)),
         tr ++ [CallNewClient (patConnection org creds);
                CallCreatePullRequest
                  (pullRequestByName proj repo title description targetBranch
                     sourceBranch)])
    | (None, None) =>
        (Panics nilDereference, tr ++ [CallNewClient (patConnection org creds)])
    end.
Proof.
  unfold Inline_submit. rewrite Sprintf_org.
  unfold NewPatConnection, git.NewClient. fold (patConnection org creds).
  cbn [bind Monad_Go].
  destruct (git.dial svc (patConnection org creds)) as [[client|] [e|]];
    cbn iota beta; rewrite ?Errorf_client; try reflexivity.
  - match goal with
    | |- _ = (_, tr ++ [?a; ?b]) =>
        change (tr ++ [a; b]) with (tr ++ ([a] ++ [b]));
        rewrite (app_assoc tr [a] [b])
    end.
    apply create_step.
Qed.

End InlineRuns.

Section ResolvingRuns.

Variable svc : git.Service.
Variables repoURL title description targetBranch sourceBranch : string.
Variable creds : RepoCredentials.
Variable tr : list Call.

(** [Resolving.OpenPR], read off the parser's answer and the answers of the
    service, stage by stage. *)
Lemma Resolving_OpenPR_run :
  Resolving.OpenPR svc repoURL title description targetBranch sourceBranch
    creds tr
  = if String.eqb (Password creds) "" then
      (Returns ("", Some (errorString
         "Azure DevOps requires a Personal Access Token (PAT) as password")),
       tr)
    else
      match Resolving.parseAzureDevOpsURL repoURL with
      | Panics p => (Panics p, tr)
      | Returns (_, _, _, Some e) => (Returns ("", Some e), tr)
      | Returns (org, proj, repo, None) =>
          let dialled := tr ++ [CallNewClient (patConnection org creds)] in
          match git.dial svc (patConnection org creds) with
          | (_, Some e) =>
              (Returns ("", Some (wrapError
                  ("error creating Azure DevOps Git client: " ++ Error e) e)),
               dialled)
          | (None, None) => (Panics nilDereference, dialled)
          | (Some client, None) =>
              match Resolving.getRepositoryID (Some client) proj repo dialled with
              | (Panics p, tr') => (Panics p, tr')
              | (Returns (_, Some e), tr') => (Returns ("", Some e), tr')
              | (Returns (repoUUID, None), tr') =>
                  let args := pullRequestByID proj repoUUID title description
                                targetBranch sourceBranch in
                  (createdURL (git.CreatePullRequest client args),
                   tr' ++ [CallCreatePullRequest args])
              end
          end
      end.
Proof.
  unfold Resolving.OpenPR.
  destruct (String.eqb (Password creds) ""); [reflexivity|].
  cbn [bind Monad_Go pure].
  destruct (Resolving.parseAzureDevOpsURL repoURL)
    as [[[[org proj] repo] [e|]]|p]; try reflexivity.
  cbn iota beta zeta. rewrite Sprintf_org.
  unfold NewPatConnection, git.NewClient. fold (patConnection org creds).
  destruct (git.dial svc (patConnection org creds)) as [[client|] [e|]];
    cbn iota beta; rewrite ?Errorf_client; try reflexivity.
  destruct (Resolving.getRepositoryID (Some client) proj repo _)
    as [[[repoUUID [e|]]|p] tr']; try reflexivity.
  apply create_step.
Qed.

End ResolvingRuns.

(** X1. In the variant with the standalone parser, an error of the parser
    ends [OpenPR] before any request: with a non-empty password, the
    parser's error is returned as it is and the log of requests is
    unchanged. *)
Theorem OpenPR_parse_error_stops (svc : git.Service)
    (repoURL title description targetBranch sourceBranch : string)
    (creds : RepoCredentials) (tr : list Call)
    (org proj repo : string) (e : error) :
  Password creds <> "" ->
  Resolving.parseAzureDevOpsURL repoURL = Returns (org, proj, repo, Some e) ->
  Resolving.OpenPR svc repoURL title description targetBranch sourceBranch
    creds tr
  = (Returns ("", Some e), tr).
Proof.
  intros Htoken Hparse. rewrite Resolving_OpenPR_run, Hparse.
  apply String.eqb_neq in Htoken. now rewrite Htoken.
Qed.

Lemma OpenPR_parse_error_stops_witness :
  Resolving.OpenPR sampleService "https://github.com/o/p/_git/r"
    "Sync" "" "main" "render" {| Password := "pat" |} []
  = (Returns ("", Some (errorString
       "unsupported Azure DevOps repository URL format")), []).
Proof.
  apply (OpenPR_parse_error_stops sampleService "https://github.com/o/p/_git/r"
           "Sync" "" "main" "render" {| Password := "pat" |} [] "" "" "");
    [discriminate | reflexivity].
Defined.

Lemma parse_visualstudio_five (repoURL : string) :
  strings.Contains repoURL "dev.azure.com" = false ->
  strings.Contains repoURL ".visualstudio.com" = true ->
  List.length (strings.Split repoURL "/") = 5 ->
  Resolving.parseAzureDevOpsURL repoURL = Panics (indexOutOfRange 5 5).
Proof.
  intros H1 H2 L. unfold Resolving.parseAzureDevOpsURL. rewrite H1, H2.
  destruct (strings.Split repoURL "/")
    as [|scheme [|empty [|host [|proj [|mid [|x more]]]]]]; try discriminate L.
  destruct (Split_head "." host) as (org & labels & Eh).
  slice_step. rewrite Eh. reflexivity.
Qed.

(** X2. The out-of-range read of the parser reaches the exported
    operation: with a non-empty password, [OpenPR] on a
    [.visualstudio.com] URL (without [dev.azure.com]) of exactly five
    segments panics, and it does so before any request. *)
Theorem OpenPR_five_segments_panic (svc : git.Service)
    (repoURL title description targetBranch sourceBranch : string)
    (creds : RepoCredentials) (tr : list Call) :
  Password creds <> "" ->
  strings.Contains repoURL "dev.azure.com" = false ->
  strings.Contains repoURL ".visualstudio.com" = true ->
  List.length (strings.Split repoURL "/") = 5 ->
  Resolving.OpenPR svc repoURL title description targetBranch sourceBranch
    creds tr
  = (Panics (indexOutOfRange 5 5), tr).
Proof.
  intros Htoken H1 H2 L. rewrite Resolving_OpenPR_run.
  rewrite (parse_visualstudio_five repoURL H1 H2 L).
  apply String.eqb_neq in Htoken. now rewrite Htoken.
Qed.

Lemma OpenPR_five_segments_panic_witness :
  Resolving.OpenPR sampleService "https://myorg.visualstudio.com/_git/myrepo"
    "Sync" "" "main" "render" {| Password := "pat" |} []
  = (Panics (indexOutOfRange 5 5), []).
Proof.
  apply OpenPR_five_segments_panic; [discriminate | reflexivity ..].
Defined.


Section ResolvingOutcomes.

Variable svc : git.Service.
Variables repoURL title description targetBranch sourceBranch : string.
Variable creds : RepoCredentials.
Variable tr : list Call.
Variables org proj repo : string.

Hypothesis has_token : Password creds <> "".
Hypothesis parsed :
  Resolving.parseAzureDevOpsURL repoURL = Returns (org, proj, repo, None).

(** With a token and a parsed URL, the run starts with the connection
    attempt. *)
Lemma Resolving_OpenPR_dials :
  Resolving.OpenPR svc repoURL title description targetBranch sourceBranch
    creds tr
  = let dialled := tr ++ [CallNewClient (patConnection org creds)] in
    match git.dial svc (patConnection org creds) with
    | (_, Some e) =>
        (Returns ("", Some (wrapError
            ("error creating Azure DevOps Git client: " ++ Error e) e)),
         dialled)
    | (None, None) => (Panics nilDereference, dialled)
    | (Some client, None) =>
        match Resolving.getRepositoryID (Some client) proj repo dialled with
        | (Panics p, tr') => (Panics p, tr')
        | (Returns (_, Some e), tr') => (Returns ("", Some e), tr')
        | (Returns (repoUUID, None), tr') =>
            let args := pullRequestByID proj repoUUID title description
                          targetBranch sourceBranch in
            (createdURL (git.CreatePullRequest client args),
             tr' ++ [CallCreatePullRequest args])
        end
    end.
Proof.
  rewrite Resolving_OpenPR_run, parsed.
  apply String.eqb_neq in has_token. now rewrite has_token.
Qed.

Variable client : git.Client.

Hypothesis dialled : git.dial svc (patConnection org creds) = (Some client, None).

Lemma Resolving_OpenPR_looks_up :
  Resolving.OpenPR svc repoURL title description targetBranch sourceBranch
    creds tr
  = match Resolving.getRepositoryID (Some client) proj repo
            (tr ++ [CallNewClient (patConnection org creds)]) with
    | (Panics p, tr') => (Panics p, tr')
    | (Returns (_, Some e), tr') => (Returns ("", Some e), tr')
    | (Returns (repoUUID, None), tr') =>
        (createdURL
           (git.CreatePullRequest client
              (pullRequestByID proj repoUUID title description targetBranch
                 sourceBranch)),
         tr' ++ [CallCreatePullRequest
                   (pullRequestByID proj repoUUID title description
                      targetBranch sourceBranch)])
    end.
Proof. rewrite Resolving_OpenPR_dials. cbv zeta. now rewrite dialled. Qed.

End ResolvingOutcomes.

(** X4. The whole successful run of the variant with the lookup: with a
    token, a parsed URL, a service that connects, a listing whose earliest
    repository of the parsed name is reached over named entries, and a
    create request that is answered with a URL, [OpenPR] returns that URL
    without error after exactly three requests: the connection for the
    parsed organization, the listing of the parsed project, and one create
    request that carries the found ID, the title and description as given
    and both refs normalized. *)
Theorem Resolving_OpenPR_success (svc : git.Service)
    (repoURL title description targetBranch sourceBranch : string)
    (creds : RepoCredentials) (tr : list Call)
    (org proj repo : string) (client : git.Client)
    (before after : list GitRepository) (hit : GitRepository)
    (pr : GitPullRequest) (url : string) :
  Password creds <> "" ->
  Resolving.parseAzureDevOpsURL repoURL = Returns (org, proj, repo, None) ->
  git.dial svc (patConnection org creds) = (Some client, None) ->
  git.GetRepositories client {| GetRepositories_Project := Some proj |}
  = (Some (before ++ hit :: after), None) ->
  Forall (passedOver repo) before ->
  Name hit = Some repo ->
  git.CreatePullRequest client
    (pullRequestByID proj (Id hit) title description targetBranch sourceBranch)
  = (Some pr, None) ->
  Url pr = Some url ->
  Resolving.OpenPR svc repoURL title description targetBranch sourceBranch
    creds tr
  = (Returns (url, None),
     tr ++ [CallNewClient (patConnection org creds);
            CallGetRepositories {| GetRepositories_Project := Some proj |};
            CallCreatePullRequest
              (pullRequestByID proj (Id hit) title description targetBranch
                 sourceBranch)]).
Proof.
  intros Htoken Hparse Hdial Hlist Hbefore Hhit Hcreate Hurl.
  rewrite (Resolving_OpenPR_looks_up svc repoURL title description
             targetBranch sourceBranch creds tr org proj repo Htoken Hparse
             client Hdial).
  rewrite (getRepositoryID_found repo client proj _ before after hit
             Hlist Hbefore Hhit).
  rewrite Hcreate. unfold createdURL. rewrite Hurl.
  repeat rewrite <- app_assoc. reflexivity.
Qed.

Lemma Resolving_OpenPR_success_witness :
  Resolving.OpenPR sampleService
    "https://myorg.visualstudio.com/myproj/_git/myrepo.git"
    "Sync" "nightly" "main" "refs/heads/render" {| Password := "pat" |} []
  = (Returns ("https://dev.azure.com/myorg/_apis/pr/1", None),
     [ CallNewClient {| BaseUrl := "https://dev.azure.com/myorg";
                        PersonalAccessToken := "pat" |};
       CallGetRepositories {| GetRepositories_Project := Some "myproj" |};
       CallCreatePullRequest
         {| Project := Some "myproj";
            RepositoryId := Some 2%N;
            GitPullRequestToCreate :=
              Some {| Title := Some "Sync";
                      Description := Some "nightly";
                      SourceRefName := Some "refs/heads/render";
                      TargetRefName := Some "refs/heads/main";
                      Repository := None;
                      Url := None |} |} ]).
Proof.
  apply (Resolving_OpenPR_success sampleService
           "https://myorg.visualstudio.com/myproj/_git/myrepo.git"
           "Sync" "nightly" "main" "refs/heads/render" {| Password := "pat" |} []
           "myorg" "myproj" "myrepo" sampleClient
           [ {| Id := Some 1%N; Name := Some "docs" |} ]
           [ {| Id := Some 3%N; Name := Some "myrepo" |} ]
           {| Id := Some 2%N; Name := Some "myrepo" |}
           {| Title := None; Description := None;
              SourceRefName := None; TargetRefName := None;
              Repository := None;
              Url := Some "https://dev.azure.com/myorg/_apis/pr/1" |}
           "https://dev.azure.com/myorg/_apis/pr/1");
    try reflexivity; try discriminate.
  constructor; [|constructor]. exists "docs". split; [reflexivity|discriminate].
Defined.

(** X5. A failed client construction ends the run of the variant with the
    lookup after that one request: the error returned wraps the service's
    error, its message is the fixed prefix followed by the service's
    message, and neither the listing nor the create request is made. *)
Theorem Resolving_OpenPR_client_failure (svc : git.Service)
    (repoURL title description targetBranch sourceBranch : string)
    (creds : RepoCredentials) (tr : list Call)
    (org proj repo : string) (gitClient : option git.Client) (e : error) :
  Password creds <> "" ->
  Resolving.parseAzureDevOpsURL repoURL = Returns (org, proj, repo, None) ->
  git.dial svc (patConnection org creds) = (gitClient, Some e) ->
  exists w,
    Resolving.OpenPR svc repoURL title description targetBranch sourceBranch
      creds tr
    = (Returns ("", Some w), tr ++ [CallNewClient (patConnection org creds)])
    /\ Unwrap w = Some e
    /\ Error w = ("error creating Azure DevOps Git client: " ++ Error e)%string.
Proof.
  intros Htoken Hparse Hdial.
  rewrite (Resolving_OpenPR_dials svc repoURL title description targetBranch
             sourceBranch creds tr org proj repo Htoken Hparse).
  cbv zeta. rewrite Hdial.
  destruct gitClient; eexists; repeat split.
Qed.

Lemma Resolving_OpenPR_client_failure_witness :
  exists w,
    Resolving.OpenPR refusingService
      "https://dev.azure.com/myorg/myproj/_git/myrepo"
      "Sync" "" "main" "render" {| Password := "pat" |} []
    = (Returns ("", Some w),
       [] ++ [CallNewClient (patConnection "myorg" {| Password := "pat" |})])
    /\ Unwrap w = Some (errorString "401 Unauthorized")
    /\ Error w
       = "error creating Azure DevOps Git client: 401 Unauthorized".
Proof.
  apply (Resolving_OpenPR_client_failure refusingService
           "https://dev.azure.com/myorg/myproj/_git/myrepo"
           "Sync" "" "main" "render" {| Password := "pat" |} []
           "myorg" "myproj" "myrepo" None (errorString "401 Unauthorized"));
    [discriminate | reflexivity | reflexivity].
Defined.

(** X6. When the lookup finds no repository of the parsed name (the
    listing is nil, or made only of entries that carry other names), the
    run of the variant with the lookup ends after the listing: the
    not-found error of [getRepositoryID] is returned unwrapped and no
    create request is made. *)
Theorem Resolving_OpenPR_repository_missing (svc : git.Service)
    (repoURL title description targetBranch sourceBranch : string)
    (creds : RepoCredentials) (tr : list Call)
    (org proj repo : string) (client : git.Client)
    (repos : option (list GitRepository)) :
  Password creds <> "" ->
  Resolving.parseAzureDevOpsURL repoURL = Returns (org, proj, repo, None) ->
  git.dial svc (patConnection org creds) = (Some client, None) ->
  git.GetRepositories client {| GetRepositories_Project := Some proj |}
  = (repos, None) ->
  repos = None \/ (exists l, repos = Some l /\ Forall (passedOver repo) l) ->
  Resolving.OpenPR svc repoURL title description targetBranch sourceBranch
    creds tr
  = (Returns ("", Some (errorString
        ("repository '" ++ repo ++ "' not found in project '" ++ proj ++ "'"))),
     tr ++ [CallNewClient (patConnection org creds);
            CallGetRepositories {| GetRepositories_Project := Some proj |}]).
Proof.
  intros Htoken Hparse Hdial Hlist Hnone.
  rewrite (Resolving_OpenPR_looks_up svc repoURL title description
             targetBranch sourceBranch creds tr org proj repo Htoken Hparse
             client Hdial).
  rewrite getRepositoryID_run, Hlist.
  assert (match repos with
          | Some l => Resolving.rangeRepos repo l
          | None => Returns None
          end = Returns None) as ->.
  { destruct Hnone as [-> | (l & -> & Hl)];
      [reflexivity | now apply rangeRepos_miss]. }
  rewrite <- app_assoc. reflexivity.
Qed.

Lemma Resolving_OpenPR_repository_missing_witness :
  Resolving.OpenPR sampleService
    "https://dev.azure.com/myorg/myproj/_git/website"
    "Sync" "" "main" "render" {| Password := "pat" |} []
  = (Returns ("", Some (errorString
        "repository 'website' not found in project 'myproj'")),
     [ CallNewClient (patConnection "myorg" {| Password := "pat" |});
       CallGetRepositories {| GetRepositories_Project := Some "myproj" |} ]).
Proof.
  apply (Resolving_OpenPR_repository_missing sampleService
           "https://dev.azure.com/myorg/myproj/_git/website"
           "Sync" "" "main" "render" {| Password := "pat" |} []
           "myorg" "myproj" "website" sampleClient
           (Some [ {| Id := Some 1%N; Name := Some "docs" |};
                   {| Id := Some 2%N; Name := Some "myrepo" |};
                   {| Id := Some 3%N; Name := Some "myrepo" |} ]));
    try reflexivity; try discriminate.
  right. eexists. split; [reflexivity|].
  repeat constructor; eexists; (split; [reflexivity | discriminate]).
Defined.

(** X7. A failed listing ends the run of the variant with the lookup after
    two requests, with the listing error wrapped once (by
    [getRepositoryID], not again by [OpenPR]); a failed create request ends
    it after three, with the create error wrapped.  In both cases the
    service's error is what [Unwrap] gives back. *)
Theorem Resolving_OpenPR_service_errors (svc : git.Service)
    (repoURL title description targetBranch sourceBranch : string)
    (creds : RepoCredentials) (tr : list Call)
    (org proj repo : string) (client : git.Client) :
  Password creds <> "" ->
  Resolving.parseAzureDevOpsURL repoURL = Returns (org, proj, repo, None) ->
  git.dial svc (patConnection org creds) = (Some client, None) ->
  let run := Resolving.OpenPR svc repoURL title description targetBranch
               sourceBranch creds tr in
  let connect := CallNewClient (patConnection org creds) in
  let list := CallGetRepositories {| GetRepositories_Project := Some proj |} in
  (forall repos e,
      git.GetRepositories client {| GetRepositories_Project := Some proj |}
      = (repos, Some e) ->
      run = (Returns ("", Some (wrapError
                ("error listing repositories: " ++ Error e) e)),
             tr ++ [connect; list]))
  /\ (forall before hit after answer e,
      git.GetRepositories client {| GetRepositories_Project := Some proj |}
      = (Some (before ++ hit :: after), None) ->
      Forall (passedOver repo) before ->
      Name hit = Some repo ->
      git.CreatePullRequest client
        (pullRequestByID proj (Id hit) title description targetBranch
           sourceBranch)
      = (answer, Some e) ->
      run = (Returns ("", Some (wrapError
                ("error creating pull request: " ++ Error e) e)),
             tr ++ [connect; list;
                    CallCreatePullRequest
                      (pullRequestByID proj (Id hit) title description
                         targetBranch sourceBranch)])).
Proof.
  intros Htoken Hparse Hdial run connect list. subst run connect list.
  rewrite (Resolving_OpenPR_looks_up svc repoURL title description
             targetBranch sourceBranch creds tr org proj repo Htoken Hparse
             client Hdial).
  split.
  - intros repos e Hlist. rewrite getRepositoryID_run, Hlist.
    rewrite <- app_assoc. reflexivity.
  - intros before hit after answer e Hlist Hbefore Hhit Hcreate.
    rewrite (getRepositoryID_found repo client proj _ before after hit
               Hlist Hbefore Hhit).
    rewrite Hcreate. repeat rewrite <- app_assoc. reflexivity.
Qed.

Lemma Resolving_OpenPR_service_errors_witness :
  Resolving.OpenPR failingService
    "https://dev.azure.com/myorg/myproj/_git/myrepo"
    "Sync" "" "main" "render" {| Password := "pat" |} []
  = (Returns ("", Some (wrapError "error listing repositories: timeout"
                          (errorString "timeout"))),
     [ CallNewClient (patConnection "myorg" {| Password := "pat" |});
       CallGetRepositories {| GetRepositories_Project := Some "myproj" |} ])
  /\ Resolving.OpenPR rejectingService
       "https://dev.azure.com/myorg/myproj/_git/docs"
       "Sync" "" "main" "render" {| Password := "pat" |} []
     = (Returns ("", Some (wrapError "error creating pull request: 409 Conflict"
                             (errorString "409 Conflict"))),
        [ CallNewClient (patConnection "myorg" {| Password := "pat" |});
          CallGetRepositories {| GetRepositories_Project := Some "myproj" |};
          CallCreatePullRequest
            (pullRequestByID "myproj" (Some 1%N) "Sync" "" "main" "render") ]).
Proof.
  split.
  - apply (proj1 (Resolving_OpenPR_service_errors failingService
             "https://dev.azure.com/myorg/myproj/_git/myrepo"
             "Sync" "" "main" "render" {| Password := "pat" |} []
             "myorg" "myproj" "myrepo" failingClient
             ltac:(discriminate) eq_refl eq_refl))
      with (repos := None) (e := errorString "timeout").
    reflexivity.
  - apply (proj2 (Resolving_OpenPR_service_errors rejectingService
             "https://dev.azure.com/myorg/myproj/_git/docs"
             "Sync" "" "main" "render" {| Password := "pat" |} []
             "myorg" "myproj" "docs" rejectingClient
             ltac:(discriminate) eq_refl eq_refl))
      with (before := [])
           (hit := {| Id := Some 1%N; Name := Some "docs" |})
           (after := [ {| Id := Some 2%N; Name := Some "myrepo" |};
                       {| Id := Some 3%N; Name := Some "myrepo" |} ])
           (answer := None) (e := errorString "409 Conflict");
      [reflexivity | constructor | reflexivity | reflexivity].
Defined.

Lemma Inline_OpenPR_run (svc : git.Service)
    (repoURL title description targetBranch sourceBranch : string)
    (creds : RepoCredentials) (tr : list Call) :
  Inline.OpenPR svc repoURL title description targetBranch sourceBranch creds tr
  = match strings.Split
            (strings.TrimPrefix repoURL "https://dev.azure.com/") "/" with
    | org :: proj :: _ :: part3 :: _ =>
        Inline_submit svc org proj (strings.TrimSuffix part3 ".git")
          title description targetBranch sourceBranch creds tr
    | _ =>
        (Returns ("", Some (errorString
            "invalid Azure DevOps repository URL format")), tr)
    end.
Proof.
  unfold Inline.OpenPR.
  destruct (strings.Split _ "/") as [|o [|p [|g [|r rest]]]]; reflexivity.
Qed.

Lemma createdURL_error (answer : option GitPullRequest * option error)
    (u : string) (e : error) :
  createdURL answer = Returns (u, Some e) -> u = "".
Proof.
  destruct answer as [[pr|] [e'|]]; cbn; try congruence.
  destruct (Url pr); congruence.
Qed.

(** X8. Neither variant ever returns a URL together with an error:
    whenever [OpenPR] returns an error, the string beside it is empty. *)
Theorem OpenPR_error_without_url (svc : git.Service)
    (repoURL title description targetBranch sourceBranch : string)
    (creds : RepoCredentials) (tr : list Call) (u : string) (e : error) :
  (fst (Resolving.OpenPR svc repoURL title description targetBranch
          sourceBranch creds tr) = Returns (u, Some e) -> u = "")
  /\ (fst (Inline.OpenPR svc repoURL title description targetBranch
             sourceBranch creds tr) = Returns (u, Some e) -> u = "").
Proof.
  split.
  - rewrite Resolving_OpenPR_run.
    destruct (String.eqb (Password creds) ""); [cbn; congruence|].
    destruct (Resolving.parseAzureDevOpsURL repoURL)
      as [[[[org proj] repo] [e'|]]|p]; try (cbn; congruence).
    cbv zeta.
    destruct (git.dial svc (patConnection org creds)) as [[client|] [e'|]];
      try (cbn; congruence).
    destruct (Resolving.getRepositoryID (Some client) proj repo _)
      as [[[repoUUID [e'|]]|p] tr']; try (cbn; congruence).
    cbn [fst]. apply createdURL_error.
  - rewrite Inline_OpenPR_run.
    destruct (strings.Split _ "/") as [|o [|p [|g [|r rest]]]];
      try (cbn; congruence).
    rewrite Inline_submit_run.
    destruct (git.dial svc (patConnection o creds)) as [[client|] [e'|]];
      try (cbn; congruence).
    cbn [fst]. apply createdURL_error.
Qed.

(** X9. Whatever the inputs and the service, the inline variant makes at
    most two requests, in one order: none, or the connection attempt, or
    that and one create request that names the repository and carries
    normalized refs.  It never lists repositories. *)
Theorem Inline_OpenPR_requests (svc : git.Service)
    (repoURL title description targetBranch sourceBranch : string)
    (creds : RepoCredentials) (tr : list Call) :
  exists new,
    snd (Inline.OpenPR svc repoURL title description targetBranch
           sourceBranch creds tr) = tr ++ new
    /\ (new = []
        \/ (exists org, new = [CallNewClient (patConnection org creds)])
        \/ (exists org proj repo,
             new = [CallNewClient (patConnection org creds);
                    CallCreatePullRequest
                      (pullRequestByName proj repo title description
                         targetBranch sourceBranch)])).
Proof.
  rewrite Inline_OpenPR_run.
  destruct (strings.Split _ "/") as [|o [|p [|g [|r rest]]]];
    try (exists []; split; [symmetry; apply app_nil_r | now left]).
  rewrite Inline_submit_run.
  destruct (git.dial svc (patConnection o creds)) as [[client|] [e|]];
    eexists; (split; [reflexivity|]).
  - right; left. now exists o.
  - right; right. now exists o, p, (strings.TrimSuffix r ".git").
  - right; left. now exists o.
  - right; left. now exists o.
Qed.

(** X10. The whole successful run of the inline variant, which checks no
    credential: for a URL whose split (after stripping the host prefix) has
    at least four segments, a service that connects and a create request
    that is answered with a URL, [OpenPR] returns that URL after exactly
    two requests: the connection for segment 0 with the password as token,
    empty or not, and one create request for project segment 1 that names
    repository segment 3 without its [.git] suffix. *)
Theorem Inline_OpenPR_success (svc : git.Service)
    (repoURL title description targetBranch sourceBranch : string)
    (creds : RepoCredentials) (tr : list Call)
    (org proj mid part3 : string) (more : list string)
    (client : git.Client) (pr : GitPullRequest) (url : string) :
  strings.Split (strings.TrimPrefix repoURL "https://dev.azure.com/") "/"
  = org :: proj :: mid :: part3 :: more ->
  git.dial svc (patConnection org creds) = (Some client, None) ->
  git.CreatePullRequest client
    (pullRequestByName proj (strings.TrimSuffix part3 ".git")
       title description targetBranch sourceBranch)
  = (Some pr, None) ->
  Url pr = Some url ->
  Inline.OpenPR svc repoURL title description targetBranch sourceBranch creds tr
  = (Returns (url, None),
     tr ++ [CallNewClient (patConnection org creds);
            CallCreatePullRequest
              (pullRequestByName proj (strings.TrimSuffix part3 ".git")
                 title description targetBranch sourceBranch)]).
Proof.
  intros Hsplit Hdial Hcreate Hurl.
  rewrite Inline_OpenPR_run, Hsplit, Inline_submit_run, Hdial, Hcreate.
  unfold createdURL. now rewrite Hurl.
Qed.

Lemma Inline_OpenPR_success_witness :
  Inline.OpenPR sampleService "https://dev.azure.com/myorg/myproj/_git/myrepo.git"
    "Sync" "" "refs/heads/main" "render" {| Password := "" |} []
  = (Returns ("https://dev.azure.com/myorg/_apis/pr/1", None),
     [ CallNewClient {| BaseUrl := "https://dev.azure.com/myorg";
                        PersonalAccessToken := "" |};
       CallCreatePullRequest
         {| Project := Some "myproj";
            RepositoryId := None;
            GitPullRequestToCreate :=
              Some {| Title := Some "Sync";
                      Description := Some "";
                      SourceRefName := Some "refs/heads/render";
                      TargetRefName := Some "refs/heads/main";
                      Repository :=
                        Some {| Id := None; Name := Some "myrepo" |};
                      Url := None |} |} ]).
Proof.
  apply (Inline_OpenPR_success sampleService
           "https://dev.azure.com/myorg/myproj/_git/myrepo.git"
           "Sync" "" "refs/heads/main" "render" {| Password := "" |} []
           "myorg" "myproj" "_git" "myrepo.git" [] sampleClient
           {| Title := None; Description := None;
              SourceRefName := None; TargetRefName := None;
              Repository := None;
              Url := Some "https://dev.azure.com/myorg/_apis/pr/1" |}
           "https://dev.azure.com/myorg/_apis/pr/1");
    reflexivity.
Defined.

(** X11. The inline variant has no rule for other hosts: on every URL that
    starts with [https://] but not with [https://dev.azure.com/] and whose
    split on [/] has at least four segments, it takes the scheme [https:]
    for the organization, the empty string for the project, and segment 3
    of the whole URL (the first path segment) for the repository. *)
Theorem Inline_OpenPR_scheme_as_organization (svc : git.Service)
    (rest title description targetBranch sourceBranch : string)
    (creds : RepoCredentials) :
  strings.HasPrefix ("https://" ++ rest) "https://dev.azure.com/" = false ->
  4 <= List.length (strings.Split ("https://" ++ rest) "/") ->
  Inline.OpenPR svc ("https://" ++ rest) title description targetBranch
    sourceBranch creds
  = Inline_submit svc "https:" ""
      (strings.TrimSuffix (nth 3 (strings.Split ("https://" ++ rest) "/") "")
         ".git")
      title description targetBranch sourceBranch creds.
Proof.
  intros Hhost.
  assert (Hsplit : strings.Split ("https://" ++ rest) "/"
                   = "https:" :: "" :: strings.Split rest "/").
  { change ("https://" ++ rest)%string
      with ("https:" ++ String "/" ("" ++ String "/" rest))%string.
    now rewrite !(Split_piece "/") by reflexivity. }
  rewrite Hsplit. intros L.
  destruct (strings.Split rest "/") as [|host [|part3 more]] eqn:E;
    simpl in L; try lia.
  apply Inline_OpenPR_parsed with (mid := host) (more := more).
  rewrite (TrimPrefix_absent _ _ Hhost), Hsplit. rewrite ?E. reflexivity.
Qed.

Lemma Inline_OpenPR_scheme_as_organization_witness :
  Inline.OpenPR sampleService "https://myorg.visualstudio.com/myproj/_git/myrepo"
    "Sync" "" "main" "render" {| Password := "pat" |}
  = Inline_submit sampleService "https:" "" "myproj"
      "Sync" "" "main" "render" {| Password := "pat" |}.
Proof.
  exact (Inline_OpenPR_scheme_as_organization sampleService
           "myorg.visualstudio.com/myproj/_git/myrepo"
           "Sync" "" "main" "render" {| Password := "pat" |}
           eq_refl ltac:(vm_compute; lia)).
Defined.

(** * What the parser can answer *)

Section Pieces.

Variables c e : ascii.

Let sep : string := String c EmptyString.
Let mark : string := String e EmptyString.

Lemma Contains_empty_char : strings.Contains "" mark = false.
Proof. reflexivity. Qed.

(** The pieces of a split never hold the separator, and they hold no byte
    that the input does not hold. *)
Lemma genSplit_pieces_free (s : string) :
  e = c \/ strings.Contains s mark = false ->
  Forall (fun piece => strings.Contains piece mark = false)
    (strings.genSplit sep 0 s).
Proof.
  unfold sep, mark. induction s as [|d s IH]; intros H.
  - repeat constructor.
  - assert (Hs : e = c \/ strings.Contains s (String e "") = false).
    { destruct H as [H|H]; [now left|right].
      rewrite Contains_cons in H. now apply orb_false_iff in H. }
    specialize (IH Hs).
    cbn [strings.genSplit]. rewrite HasPrefix_char.
    destruct (Ascii.eqb d c) eqn:Edc.
    + constructor; [reflexivity | exact IH].
    + destruct (strings.genSplit (String c "") 0 s) as [|piece pieces];
        [repeat constructor|].
      * rewrite Contains_cons, HasPrefix_char. simpl.
        destruct H as [->|H]; [now rewrite Edc|].
        rewrite Contains_cons, HasPrefix_char in H.
        now apply orb_false_iff in H as [-> _].
      * inversion IH as [|? ? Hpiece Hpieces]; subst.
        constructor; [|exact Hpieces].
        rewrite Contains_cons, HasPrefix_char, Hpiece, orb_false_r.
        destruct H as [->|H]; [exact Edc|].
        rewrite Contains_cons, HasPrefix_char in H.
        now apply orb_false_iff in H as [-> _].
Qed.

Lemma take_free (n : nat) (s : string) :
  strings.Contains s mark = false ->
  strings.Contains (strings.take n s) mark = false.
Proof.
  unfold mark. revert s; induction n as [|n IH]; intros [|d s] H;
    try reflexivity.
  cbn [strings.take]. rewrite Contains_cons, HasPrefix_char in *.
  apply orb_false_iff in H as [-> H]. now rewrite IH.
Qed.

Lemma TrimSuffix_free (s suffix : string) :
  strings.Contains s mark = false ->
  strings.Contains (strings.TrimSuffix s suffix) mark = false.
Proof.
  intros H. unfold strings.TrimSuffix.
  destruct (strings.HasSuffix s suffix); [now apply take_free | exact H].
Qed.

End Pieces.

Lemma Split_slash_free (s : string) :
  Forall (fun piece => strings.Contains piece "/" = false)
    (strings.Split s "/").
Proof. apply (genSplit_pieces_free "/" "/"). now left. Qed.

(** X12. The names the parser returns are single path segments: whenever
    [parseAzureDevOpsURL] returns without error, none of organization,
    project and repository contains a [/]. *)
Theorem parse_names_slash_free (repoURL org proj repo : string) :
  Resolving.parseAzureDevOpsURL repoURL = Returns (org, proj, repo, None) ->
  strings.Contains org "/" = false
  /\ strings.Contains proj "/" = false
  /\ strings.Contains repo "/" = false.
Proof.
  unfold Resolving.parseAzureDevOpsURL.
  destruct (strings.Contains repoURL "dev.azure.com").
  - pose proof (Split_slash_free
                  (strings.TrimPrefix repoURL "https://dev.azure.com/")) as F.
    destruct (strings.Split _ "/") as [|o [|p [|g [|r rest]]]];
      slice_step; intros H; inversion H; subst.
    inversion F as [|? ? Fo F1]; inversion F1 as [|? ? Fp F2];
      inversion F2 as [|? ? _ F3]; inversion F3 as [|? ? Fr _]; subst.
    repeat split; trivial. now apply (TrimSuffix_free "/").
  - destruct (strings.Contains repoURL ".visualstudio.com");
      [|intros H; discriminate H].
    pose proof (Split_slash_free repoURL) as F.
    destruct (strings.Split repoURL "/")
      as [|scheme [|empty [|host [|p [|mid [|r more]]]]]];
      slice_step; try (intros H; discriminate H).
    + destruct (strings.Split host ".") as [|o labels];
        slice_step; intros H; discriminate H.
    + inversion F as [|? ? _ F1]; inversion F1 as [|? ? _ F2];
        inversion F2 as [|? ? Fhost F3]; inversion F3 as [|? ? Fp F4];
        inversion F4 as [|? ? _ F5]; inversion F5 as [|? ? Fr _]; subst.
      pose proof (genSplit_pieces_free "." "/" host (or_intror Fhost)) as Fl.
      change (strings.genSplit "." 0 host) with (strings.Split host ".") in Fl.
      destruct (strings.Split host ".") as [|o labels];
        slice_step; intros H; inversion H; subst.
      inversion Fl; subst.
      repeat split; trivial. now apply (TrimSuffix_free "/").
Qed.

Lemma parse_names_slash_free_witness :
  strings.Contains "myorg" "/" = false
  /\ strings.Contains "myproj" "/" = false
  /\ strings.Contains "myrepo" "/" = false.
Proof.
  apply (parse_names_slash_free
           "https://myorg.visualstudio.com/myproj/_git/myrepo.git/pullrequests").
  reflexivity.
Defined.

(** X13. The parser panics on exactly one kind of input: a URL without
    [dev.azure.com], with [.visualstudio.com], whose split on [/] has
    exactly five segments; every other string gets an answer, and in
    particular the [dev.azure.com] branch never panics. *)
Theorem parse_panics_iff (repoURL : string) :
  (exists p, Resolving.parseAzureDevOpsURL repoURL = Panics p)
  <-> (strings.Contains repoURL "dev.azure.com" = false
       /\ strings.Contains repoURL ".visualstudio.com" = true
       /\ List.length (strings.Split repoURL "/") = 5).
Proof.
  split.
  - intros [p H]. unfold Resolving.parseAzureDevOpsURL in H.
    destruct (strings.Contains repoURL "dev.azure.com").
    + destruct (strings.Split _ "/") as [|o [|pr [|g [|r rest]]]];
        discriminate H.
    + destruct (strings.Contains repoURL ".visualstudio.com");
        [|discriminate H].
      destruct (strings.Split repoURL "/")
        as [|scheme [|empty [|host [|pr [|mid [|r more]]]]]];
        try discriminate H; [now repeat split|].
      destruct (Split_head "." host) as (org & labels & Eh).
      revert H. slice_step. rewrite Eh. discriminate.
  - intros (H1 & H2 & L). eexists.
    now apply parse_visualstudio_five.
Qed.

(** X14. Every error of the parser comes with three empty names and tells
    which test failed: "unsupported" exactly when the URL contains neither
    host name, "invalid" when it contains [dev.azure.com] and has fewer
    than four segments after the host prefix is stripped, or contains only
    [.visualstudio.com] and has fewer than five segments in all. *)
Theorem parse_error_shape (repoURL org proj repo : string) (e : error) :
  Resolving.parseAzureDevOpsURL repoURL = Returns (org, proj, repo, Some e) ->
  (org, proj, repo) = ("", "", "")
  /\ ((e = errorString "unsupported Azure DevOps repository URL format"
       /\ strings.Contains repoURL "dev.azure.com" = false
       /\ strings.Contains repoURL ".visualstudio.com" = false)
      \/ (e = errorString "invalid Azure DevOps repository URL format"
          /\ strings.Contains repoURL "dev.azure.com" = true
          /\ List.length
               (strings.Split
                  (strings.TrimPrefix repoURL "https://dev.azure.com/") "/") < 4)
      \/ (e = errorString "invalid Azure DevOps repository URL format"
          /\ strings.Contains repoURL "dev.azure.com" = false
          /\ strings.Contains repoURL ".visualstudio.com" = true
          /\ List.length (strings.Split repoURL "/") < 5)).
Proof.
  unfold Resolving.parseAzureDevOpsURL.
  destruct (strings.Contains repoURL "dev.azure.com").
  - destruct (strings.Split _ "/") as [|o [|p [|g [|r rest]]]];
      slice_step; intros H; inversion H; subst;
      (split; [reflexivity | right; left; repeat split; simpl; lia]).
  - destruct (strings.Contains repoURL ".visualstudio.com").
    + destruct (strings.Split repoURL "/")
        as [|scheme [|empty [|host [|p [|mid [|r more]]]]]];
        slice_step;
        try (intros H; inversion H; subst;
             (split; [reflexivity | right; right; repeat split; simpl; lia])).
      * destruct (strings.Split host ".") as [|o labels];
          slice_step; intros H; discriminate H.
      * destruct (strings.Split host ".") as [|o labels];
          slice_step; intros H; discriminate H.
    + intros H; inversion H; subst. split; [reflexivity | now left].
Qed.

Lemma parse_error_shape_witness :
  ("", "", "") = ("", "", "")
  /\ ((errorString "invalid Azure DevOps repository URL format"
       = errorString "unsupported Azure DevOps repository URL format"
       /\ strings.Contains "https://dev.azure.com/myorg/myproj" "dev.azure.com"
          = false
       /\ strings.Contains "https://dev.azure.com/myorg/myproj"
            ".visualstudio.com" = false)
      \/ (errorString "invalid Azure DevOps repository URL format"
          = errorString "invalid Azure DevOps repository URL format"
          /\ strings.Contains "https://dev.azure.com/myorg/myproj"
               "dev.azure.com" = true
          /\ List.length
               (strings.Split
                  (strings.TrimPrefix "https://dev.azure.com/myorg/myproj"
                     "https://dev.azure.com/") "/") < 4)
      \/ (errorString "invalid Azure DevOps repository URL format"
          = errorString "invalid Azure DevOps repository URL format"
          /\ strings.Contains "https://dev.azure.com/myorg/myproj"
               "dev.azure.com" = false
          /\ strings.Contains "https://dev.azure.com/myorg/myproj"
               ".visualstudio.com" = true
          /\ List.length
               (strings.Split "https://dev.azure.com/myorg/myproj" "/") < 5)).
Proof.
  apply (parse_error_shape "https://dev.azure.com/myorg/myproj" "" "" "").
  reflexivity.
Defined.

(** * More on ref normalization *)

Lemma ensureRefFormat_unguarded (x : string) :
  Resolving.ensureRefFormat x
  = ("refs/heads/" ++ strings.TrimPrefix x "refs/heads/")%string.
Proof.
  destruct (strings.HasPrefix x "refs/heads/") eqn:P.
  - rewrite (ensureRefFormat_prefixed x P).
    unfold strings.TrimPrefix. rewrite P. now apply HasPrefix_split.
  - rewrite (ensureRefFormat_bare x P).
    now rewrite (TrimPrefix_absent x _ P).
Qed.

(** X15. In both variants the result of [ensureRefFormat] always starts
    with [refs/heads/], and it is the input with one leading [refs/heads/]
    stripped, if there is one, and [refs/heads/] put in front: the guard
    of the function changes nothing either. *)
Theorem ensureRefFormat_canonical (x : string) :
  strings.HasPrefix (Resolving.ensureRefFormat x) "refs/heads/" = true
  /\ Resolving.ensureRefFormat x
     = ("refs/heads/" ++ strings.TrimPrefix x "refs/heads/")%string
  /\ Inline.ensureRefFormat x
     = ("refs/heads/" ++ strings.TrimPrefix x "refs/heads/")%string.
Proof.
  pose proof (ensureRefFormat_unguarded x) as E.
  split; [|split; [exact E | exact E]].
  rewrite E. apply HasPrefix_app.
Qed.

(** X16. Normalizing keeps the branch: stripping [refs/heads/] from the
    normalized name gives what stripping it from the input gives, so two
    names are normalized to the same ref exactly when they agree once a
    leading [refs/heads/] is stripped. *)
Theorem ensureRefFormat_same_branch (x y : string) :
  strings.TrimPrefix (Resolving.ensureRefFormat x) "refs/heads/"
  = strings.TrimPrefix x "refs/heads/"
  /\ (Resolving.ensureRefFormat x = Resolving.ensureRefFormat y
      <-> strings.TrimPrefix x "refs/heads/"
          = strings.TrimPrefix y "refs/heads/").
Proof.
  assert (strip : forall z,
             strings.TrimPrefix (Resolving.ensureRefFormat z) "refs/heads/"
             = strings.TrimPrefix z "refs/heads/").
  { intros z. destruct (strings.HasPrefix z "refs/heads/") eqn:P.
    - now rewrite (ensureRefFormat_prefixed z P).
    - rewrite (ensureRefFormat_bare z P), TrimPrefix_app.
      now rewrite (TrimPrefix_absent z _ P). }
  split; [apply strip|]. split; intros H.
  - rewrite <- (strip x), <- (strip y). now rewrite H.
  - rewrite (ensureRefFormat_unguarded x), (ensureRefFormat_unguarded y).
    now rewrite H.
Qed.

(** * More on the repository lookup *)

Section Scan.

Variable repository : string.

Lemma rangeRepos_nameless (before after : list GitRepository)
    (repo : GitRepository) :
  Forall (passedOver repository) before ->
  Name repo = None ->
  Resolving.rangeRepos repository (before ++ repo :: after)
  = Panics nilDereference.
Proof.
  intros Hb Hn. rewrite (rangeRepos_passes repository before _ Hb).
  simpl. now rewrite Hn.
Qed.

(** The scan ends in one of three ways, and the listing shows which. *)
Lemma rangeRepos_cases (l : list GitRepository) :
  (exists before hit after,
      l = before ++ hit :: after
      /\ Forall (passedOver repository) before
      /\ Name hit = Some repository
      /\ Resolving.rangeRepos repository l = Returns (Some (Id hit, None)))
  \/ (Forall (passedOver repository) l
      /\ Resolving.rangeRepos repository l = Returns None)
  \/ (reachesNameless repository l
      /\ Resolving.rangeRepos repository l = Panics nilDereference).
Proof.
  induction l as [|first l IH].
  - right; left. split; [constructor | reflexivity].
  - destruct (Name first) as [name|] eqn:E.
    + destruct (String.eqb_spec name repository) as [->|Hne].
      * left. exists [], first, l. repeat split; trivial.
        now apply rangeRepos_hit.
      * assert (P : passedOver repository first) by now exists name.
        assert (R : Resolving.rangeRepos repository (first :: l)
                    = Resolving.rangeRepos repository l).
        { apply (rangeRepos_passes repository [first] l).
          constructor; [exact P | constructor]. }
        rewrite R.
        destruct IH as [(before & hit & after & -> & Hb & Hh & Hr)
                       | [[Hall Hr] | [(before & repo & after & -> & Hb & Hn) Hr]]].
        -- left. exists (first :: before), hit, after.
           repeat split; trivial. now constructor.
        -- right; left. split; [now constructor | exact Hr].
        -- right; right. split; [|exact Hr].
           exists (first :: before), repo, after.
           repeat split; trivial. now constructor.
    + right; right. split.
      * exists [], first, l. repeat split; trivial.
      * now apply (rangeRepos_nameless [] l first).
Qed.

End Scan.

(** X17. The lookup is sound: whenever [getRepositoryID] returns without
    error, the listing call succeeded and the ID returned is that of the
    earliest listed repository whose name is exactly the requested one;
    and whenever it returns an error, the ID beside it is nil. *)
Theorem getRepositoryID_sound (client : git.Client)
    (project repository : string) (tr : list Call)
    (id : option UUID) (err : option error) :
  fst (Resolving.getRepositoryID (Some client) project repository tr)
  = Returns (id, err) ->
  match err with
  | None =>
      exists before hit after,
        git.GetRepositories client {| GetRepositories_Project := Some project |}
        = (Some (before ++ hit :: after), None)
        /\ Forall (passedOver repository) before
        /\ Name hit = Some repository
        /\ Id hit = id
  | Some _ => id = None
  end.
Proof.
  rewrite getRepositoryID_run. cbn [fst].
  destruct (git.GetRepositories client _) as [repos [e|]].
  - intros H; inversion H; reflexivity.
  - destruct repos as [l|]; [|intros H; inversion H; reflexivity].
    destruct (rangeRepos_cases repository l)
      as [(before & hit & after & -> & Hb & Hh & Hr)
         | [[Hall Hr] | [_ Hr]]]; rewrite Hr; intros H; inversion H; subst.
    + now exists before, hit, after.
    + reflexivity.
Qed.

Lemma getRepositoryID_sound_witness :
  exists before hit after,
    git.GetRepositories sampleClient
      {| GetRepositories_Project := Some "myproj" |}
    = (Some (before ++ hit :: after), None)
    /\ Forall (passedOver "myrepo") before
    /\ Name hit = Some "myrepo"
    /\ Id hit = Some 2%N.
Proof.
  apply (getRepositoryID_sound sampleClient "myproj" "myrepo" []
           (Some 2%N) None).
  reflexivity.
Defined.

(** X18. The lookup panics in exactly one situation: the listing call
    succeeds with a listing in which an entry without a name is reached,
    that is, one that is listed before any repository of the requested
    name. *)
Theorem getRepositoryID_panics_iff (client : git.Client)
    (project repository : string) (tr : list Call) :
  (exists p,
      fst (Resolving.getRepositoryID (Some client) project repository tr)
      = Panics p)
  <-> (exists l,
        git.GetRepositories client {| GetRepositories_Project := Some project |}
        = (Some l, None)
        /\ reachesNameless repository l).
Proof.
  rewrite getRepositoryID_run. cbn [fst]. split.
  - intros [p H].
    destruct (git.GetRepositories client _) as [repos [e|]];
      [discriminate H|].
    destruct repos as [l|]; [|discriminate H].
    exists l. split; [reflexivity|].
    destruct (rangeRepos_cases repository l)
      as [(before & hit & after & -> & Hb & Hh & Hr)
         | [[Hall Hr] | [Hnameless Hr]]]; rewrite Hr in H;
      [discriminate H | discriminate H | exact Hnameless].
  - intros (l & -> & before & repo & after & -> & Hb & Hn).
    exists nilDereference.
    now rewrite (rangeRepos_nameless repository before after repo Hb Hn).
Qed.

Lemma getRepositoryID_found_inv (client : git.Client)
    (project repository : string) (tr tr' : list Call) (id : option UUID) :
  Resolving.getRepositoryID (Some client) project repository tr
  = (Returns (id, None), tr') ->
  exists before hit after,
    git.GetRepositories client {| GetRepositories_Project := Some project |}
    = (Some (before ++ hit :: after), None)
    /\ Forall (passedOver repository) before
    /\ Name hit = Some repository
    /\ Id hit = id.
Proof.
  rewrite getRepositoryID_run.
  destruct (git.GetRepositories client _) as [repos [e|]];
    [intros H; inversion H|].
  destruct repos as [l|]; [|intros H; inversion H].
  destruct (rangeRepos_cases repository l)
    as [(before & hit & after & -> & Hb & Hh & Hr)
       | [[Hall Hr] | [_ Hr]]]; rewrite Hr; intros H; inversion H; subst.
  now exists before, hit, after.
Qed.

Lemma createdURL_success (answer : option GitPullRequest * option error)
    (u : string) :
  createdURL answer = Returns (u, None) ->
  exists pr, answer = (Some pr, None) /\ Url pr = Some u.
Proof.
  destruct answer as [[pr|] [e|]]; cbn; try discriminate.
  destruct (Url pr) as [url|] eqn:E; [|discriminate].
  intros H; inversion H; subst. now exists pr.
Qed.

(** X19. The variant with the lookup never reports success on its own
    account: whenever [OpenPR] returns a URL without error, the password
    was not empty, the URL parsed, the service connected, the listing held
    a repository of the parsed name (reached over named entries), and the
    URL returned is the one the service gave in answer to a create request
    for that repository's ID. *)
Theorem Resolving_OpenPR_success_means_created (svc : git.Service)
    (repoURL title description targetBranch sourceBranch : string)
    (creds : RepoCredentials) (tr : list Call) (u : string) :
  fst (Resolving.OpenPR svc repoURL title description targetBranch
         sourceBranch creds tr) = Returns (u, None) ->
  exists org proj repo client before hit after pr,
    Password creds <> ""
    /\ Resolving.parseAzureDevOpsURL repoURL = Returns (org, proj, repo, None)
    /\ git.dial svc (patConnection org creds) = (Some client, None)
    /\ git.GetRepositories client {| GetRepositories_Project := Some proj |}
       = (Some (before ++ hit :: after), None)
    /\ Forall (passedOver repo) before
    /\ Name hit = Some repo
    /\ git.CreatePullRequest client
         (pullRequestByID proj (Id hit) title description targetBranch
            sourceBranch)
       = (Some pr, None)
    /\ Url pr = Some u.
Proof.
  rewrite Resolving_OpenPR_run.
  destruct (String.eqb_spec (Password creds) "") as [|Htoken];
    [discriminate|].
  destruct (Resolving.parseAzureDevOpsURL repoURL)
    as [[[[org proj] repo] [e|]]|p]; try discriminate.
  cbv zeta.
  destruct (git.dial svc (patConnection org creds)) as [[client|] [e|]] eqn:D;
    try discriminate.
  destruct (Resolving.getRepositoryID (Some client) proj repo _)
    as [[[repoUUID [e|]]|p] tr'] eqn:G; try discriminate.
  cbn [fst]. intros C.
  apply getRepositoryID_found_inv in G
    as (before & hit & after & Hlist & Hb & Hh & <-).
  apply createdURL_success in C as (pr & Hcreate & Hurl).
  exists org, proj, repo, client, before, hit, after, pr.
  repeat split; trivial.
Qed.

Lemma Resolving_OpenPR_success_means_created_witness :
  exists org proj repo client before hit after pr,
    Password {| Password := "pat" |} <> ""
    /\ Resolving.parseAzureDevOpsURL
         "https://dev.azure.com/myorg/myproj/_git/myrepo"
       = Returns (org, proj, repo, None)
    /\ git.dial sampleService (patConnection org {| Password := "pat" |})
       = (Some client, None)
    /\ git.GetRepositories client {| GetRepositories_Project := Some proj |}
       = (Some (before ++ hit :: after), None)
    /\ Forall (passedOver repo) before
    /\ Name hit = Some repo
    /\ git.CreatePullRequest client
         (pullRequestByID proj (Id hit) "Sync" "" "main" "render")
       = (Some pr, None)
    /\ Url pr = Some "https://dev.azure.com/myorg/_apis/pr/1".
Proof.
  apply (Resolving_OpenPR_success_means_created sampleService
           "https://dev.azure.com/myorg/myproj/_git/myrepo"
           "Sync" "" "main" "render" {| Password := "pat" |} []).
  reflexivity.
Defined.

(** * More URL shapes *)

Section LongerPaths.

Variables o p m r tail : string.

Hypothesis o_segment : strings.Contains o "/" = false.
Hypothesis p_segment : strings.Contains p "/" = false.
Hypothesis m_segment : strings.Contains m "/" = false.
Hypothesis r_segment : strings.Contains r "/" = false.

Lemma Split_path_with_tail :
  strings.Split (o ++ "/" ++ p ++ "/" ++ m ++ "/" ++ r ++ "/" ++ tail) "/"
  = o :: p :: m :: r :: strings.Split tail "/".
Proof.
  change (o ++ "/" ++ p ++ "/" ++ m ++ "/" ++ r ++ "/" ++ tail)%string
    with (o ++ String "/" (p ++ String "/" (m ++ String "/"
            (r ++ String "/" tail))))%string.
  now rewrite !(Split_piece "/") by assumption.
Qed.

End LongerPaths.

(** X20. Whatever follows the repository segment is ignored: with [o],
    [p], [m] and [r] free of [/], the URL
    [https://dev.azure.com/o/p/m/r/...] parses to organization [o],
    project [p] and repository [r] without one [.git] suffix, whatever the
    rest of the path is, in both variants. *)
Theorem parse_ignores_trailing_path (o p m r tail : string) :
  strings.Contains o "/" = false ->
  strings.Contains p "/" = false ->
  strings.Contains m "/" = false ->
  strings.Contains r "/" = false ->
  let repoURL :=
    ("https://dev.azure.com/" ++ o ++ "/" ++ p ++ "/" ++ m ++ "/" ++ r
     ++ "/" ++ tail)%string in
  Resolving.parseAzureDevOpsURL repoURL
  = Returns (o, p, strings.TrimSuffix r ".git", None)
  /\ forall svc title description targetBranch sourceBranch creds,
      Inline.OpenPR svc repoURL title description targetBranch sourceBranch
        creds
      = Inline_submit svc o p (strings.TrimSuffix r ".git")
          title description targetBranch sourceBranch creds.
Proof.
  intros Ho Hp Hm Hr repoURL.
  assert (S : strings.Split
                (strings.TrimPrefix repoURL "https://dev.azure.com/") "/"
              = o :: p :: m :: r :: strings.Split tail "/").
  { unfold repoURL. rewrite TrimPrefix_app.
    now apply Split_path_with_tail. }
  split.
  - rewrite parse_dev_azure
      by apply host_prefix_Contains, HasPrefix_app.
    unfold devAzureRule. now rewrite S.
  - intros. now apply Inline_OpenPR_parsed
                with (mid := m) (more := strings.Split tail "/").
Qed.

Lemma parse_ignores_trailing_path_witness :
  Resolving.parseAzureDevOpsURL
    "https://dev.azure.com/myorg/myproj/_git/myrepo/pullrequest/7?view=files"
  = Returns ("myorg", "myproj", "myrepo", None).
Proof.
  exact (proj1 (parse_ignores_trailing_path "myorg" "myproj" "_git" "myrepo"
                  "pullrequest/7?view=files"
                  eq_refl eq_refl eq_refl eq_refl)).
Defined.

(** X21. The SSH form of an Azure DevOps URL is accepted and read one
    segment off: with [o], [p] and [r] free of [/],
    [git@ssh.dev.azure.com:v3/o/p/r] contains [dev.azure.com] and has four
    segments, so the parser returns the host part
    [git@ssh.dev.azure.com:v3] as organization, [o] as project and [r]
    (without one [.git] suffix) as repository; [p] is dropped. *)
Theorem parse_ssh_shape (o p r : string) :
  strings.Contains o "/" = false ->
  strings.Contains p "/" = false ->
  strings.Contains r "/" = false ->
  Resolving.parseAzureDevOpsURL
    ("git@ssh.dev.azure.com:v3/" ++ o ++ "/" ++ p ++ "/" ++ r)
  = Returns ("git@ssh.dev.azure.com:v3", o, strings.TrimSuffix r ".git", None).
Proof.
  intros Ho Hp Hr.
  rewrite parse_dev_azure
    by apply (Contains_middle "git@ssh." "dev.azure.com").
  unfold devAzureRule.
  rewrite TrimPrefix_absent by reflexivity.
  change ("git@ssh.dev.azure.com:v3/" ++ o ++ "/" ++ p ++ "/" ++ r)%string
    with ("git@ssh.dev.azure.com:v3" ++ "/" ++ o ++ "/" ++ p ++ "/" ++ r)%string.
  rewrite (Split_dev_azure_path "git@ssh.dev.azure.com:v3" o p r)
    by (assumption || reflexivity).
  reflexivity.
Qed.

Lemma parse_ssh_shape_witness :
  Resolving.parseAzureDevOpsURL "git@ssh.dev.azure.com:v3/myorg/myproj/myrepo"
  = Returns ("git@ssh.dev.azure.com:v3", "myorg", "myrepo", None).
Proof.
  exact (parse_ssh_shape "myorg" "myproj" "myrepo" eq_refl eq_refl eq_refl).
Defined.
